(** * makeLSSTobs: the observation-generation driver of sims_movingObjects

    A shallow embedding of [bin.src/makeLSSTobs.py].  The script is glue
    around an external library: every call that leaves the script
    (the opsim database, the orbit reader, the observation objects, logging)
    is recorded as an event of a trace, and its answer is read from a
    [World], so that the script's own control flow, its exceptions and its
    string computations can be stated and proved. *)

From Stdlib Require Import String Ascii List ZArith Lia.
From stdpp Require Import base option list strings gmap sorting.

Import ListNotations.
Open Scope string_scope.
Open Scope list_scope.

(** ** Python strings

    Command-line strings are modelled as [string]; the operations below follow
    the Python built-ins the script calls, on ASCII text. *)

Module Py.

(** One character of [str.lower]. *)
Definition lower_ascii (c : ascii) : ascii :=
  let n := nat_of_ascii c in
  if (65 <=? n)%nat && (n <=? 90)%nat then ascii_of_nat (n + 32) else c.

(** [s.lower()] *)
Fixpoint lower (s : string) : string :=
  match s with
  | EmptyString => EmptyString
  | String c r => String (lower_ascii c) (lower r)
  end.

(** [s.split(sep)] for a one-character separator: never an empty list. *)
Fixpoint split (sep : ascii) (s : string) : list string :=
  match s with
  | EmptyString => [EmptyString]
  | String c r =>
      if Ascii.eqb c sep then EmptyString :: split sep r
      else match split sep r with
           | h :: t => String c h :: t
           | [] => [String c EmptyString]
           end
  end.

(** [sep.join(l)] *)
Fixpoint join (sep : string) (l : list string) : string :=
  match l with
  | [] => EmptyString
  | [x] => x
  | x :: r => x +:+ sep +:+ join sep r
  end.

(** [l[:-1]] *)
Definition but_last {A} (l : list A) : list A := removelast l.

(** [s.rfind(c)]: the index of the last occurrence, [None] for Python's -1. *)
Fixpoint rfind (c : ascii) (s : string) : option nat :=
  match s with
  | EmptyString => None
  | String a r =>
      match rfind c r with
      | Some i => Some (S i)
      | None => if Ascii.eqb a c then Some 0%nat else None
      end
  end.

(** [s[i:]] *)
Definition slice_from (i : nat) (s : string) : string :=
  substring i (String.length s - i) s.

(** [s.startswith(p)] *)
Definition startswith (p s : string) : bool := String.prefix p s.

(** [s.endswith("/")] *)
Fixpoint ends_with_slash (s : string) : bool :=
  match s with
  | EmptyString => false
  | String c EmptyString => Ascii.eqb c "/"
  | String _ r => ends_with_slash r
  end.

(** [s.replace(old, new)] for a non-empty [old]: the occurrences are found
    from the left and do not overlap.  [skip] counts the characters of a
    matched occurrence that are still to be passed over. *)
Fixpoint replace_from (old new : string) (skip : nat) (s : string) : string :=
  match s with
  | EmptyString => EmptyString
  | String c r =>
      match skip with
      | S k => replace_from old new k r
      | O =>
          if String.prefix old s
          then new +:+ replace_from old new (String.length old - 1) r
          else String c (replace_from old new 0 r)
      end
  end.

Definition replace (old new s : string) : string := replace_from old new 0 s.

(** [os.path.split(p)[-1]] (posixpath): everything after the last slash. *)
Definition os_path_split_tail (p : string) : string :=
  slice_from (match rfind "/" p with Some i => S i | None => 0%nat end) p.

(** [os.path.join(a, b)] (posixpath, two arguments). *)
Definition os_path_join (a b : string) : string :=
  if startswith "/" b then b
  else if (String.eqb a "" || ends_with_slash a)%bool then a +:+ b
  else a +:+ "/" +:+ b.

(** [np.unique] on an array of strings: sorted, without repetitions. *)
Definition str_le (a b : string) : Prop := String.leb a b = true.

#[global] Instance str_le_dec a b : Decision (str_le a b).
Proof. unfold str_le. apply _. Defined.

Definition np_unique (l : list string) : list string :=
  merge_sort str_le (remove_dups l).

(** [list(set(l))]: Python leaves the order open; the model lists the
    elements of the set in the order [elements] gives. *)
Definition list_set (l : list string) : list string :=
  elements (list_to_set l : gset string).

(** The line feed of ['\n']. *)
Definition nl : string := String (ascii_of_nat 10) EmptyString.

End Py.

(** ** Exceptions, traces and the effect monad *)

Inductive exn_class := ValueError | KeyError | TypeError | OtherException (name : string).

(** [Own]: raised by a [raise] statement of the script.  [Ext]: raised inside
    a call the script makes (a library, a built-in or a subscript). *)
Inductive exn :=
| Own (c : exn_class) (msg : string)
| Ext (c : exn_class) (msg : string).

Definition class_of (e : exn) : exn_class :=
  match e with Own c _ | Ext c _ => c end.

Definition is_ValueError (e : exn) : bool :=
  match class_of e with ValueError => true | _ => false end.

(** What an external call answers: a value, or an exception of its own. *)
Inductive reply (A : Type) :=
| Done (a : A)
| Fails (c : exn_class) (msg : string).
Arguments Done {A} a.
Arguments Fails {A} c msg.

(** Python floats are only handed through to the library; the model keeps
    them as a decimal mantissa and exponent. *)
Record pyfloat := Float { mantissa : Z; exponent10 : Z }.

(** A [fmt % operands] message, kept unformatted. *)
Inductive operand := OStr (s : string) | OList (l : list string) | OInt (n : nat).
Record message := Fmt { fmt : string; operands : list operand }.

(** The keyword arguments both observation constructors receive. *)
Record obs_kwargs := {
  kw_footprint : string;
  kw_rFov : pyfloat;
  kw_xTol : pyfloat;
  kw_yTol : pyfloat;
  kw_ephMode : string;
  kw_obsCode : string;
  kw_ephFile : option string;
  kw_ephType : string;
  kw_obsTimeCol : string;
  kw_obsTimeScale : string;
  kw_seeingCol : string;
  kw_visitExpTimeCol : string;
  kw_obsRA : string;
  kw_obsDec : string;
  kw_obsRotSkyPos : string;
  kw_obsDegrees : string;
  kw_outfileName : option string;
  kw_tstep : pyfloat;
  kw_obsMetadata : option string
}.

(** An observation object is identified by the constructor call that made it. *)
Inductive Obs :=
| LinearObs (kw : obs_kwargs)
| DirectObs (kw : obs_kwargs) (prelimEphMode : string) (roughTol : pyfloat).

Definition kwargs_of (o : Obs) : obs_kwargs :=
  match o with LinearObs kw | DirectObs kw _ _ => kw end.

(** The orbit table after [Orbits.readOrbits]: the script reads one column of
    it, [orbits.orbits['sed_filename']] ([None]: the column is missing). *)
Record Orbits := { sed_filename : option (list string) }.

(** The array of visits: the script takes its length and its ['filter'] field
    ([None]: the array has no such field). *)
Record SimData := { sd_len : nat; sd_filter : option (list string) }.

Inductive event :=
| LoggingBasicConfig (filename : option string)
| LoggingInfo (m : message)
| LoggingCritical (m : message)
| Print (s : string)
| OsPathIsfile (path : string)
| NewOrbits
| OrbitsReadOrbits (orbitfile : string)
| NewOpsimDatabase (opsimfile : string)
| GetColMap
| QueryColumns (colnames : list string) (sqlconstraint : option string) (numLimit : nat)
| FetchMetricData (colnames : list string) (sqlconstraint : option string)
| OpsdbClose
| NewObs (o : Obs)
| ReadFilters (o : Obs) (filterlist : list string)
| CalcColors (o : Obs) (sedname : string)
| Run (o : Obs) (orbits : Orbits) (simdata : SimData).

Inductive outcome (A : Type) :=
| Returns (a : A)
| Raises (e : exn).
Arguments Returns {A} a.
Arguments Raises {A} e.

(** A computation: how it ends, and the external calls it made, in order. *)
Definition M (A : Type) : Type := (outcome A * list event)%type.

Definition ret {A} (a : A) : M A := (Returns a, []).
Definition raise {A} (e : exn) : M A := (Raises e, []).

Definition bind {A B} (m : M A) (k : A -> M B) : M B :=
  match m with
  | (Returns a, t) => let '(r, t') := k a in (r, t ++ t')
  | (Raises e, t) => (Raises e, t)
  end.

Notation "'let!' x ':=' m 'in' k" := (bind m (fun x => k))
  (at level 10, x pattern, m at level 100, k at level 200).

Arguments bind {A B} m k : simpl never.

(** A call that only leaves a mark (logging, print). *)
Definition emit (ev : event) : M unit := (Returns tt, [ev]).

(** A call into the library: recorded, then answered by the world. *)
Definition call {A} (ev : event) (r : reply A) : M A :=
  (match r with Done a => Returns a | Fails c msg => Raises (Ext c msg) end, [ev]).

(** [try: body  except ValueError: handler] *)
Definition try_except_ValueError {A} (body handler : M A) : M A :=
  match body with
  | (Raises e, t) =>
      if is_ValueError e then let '(r, t') := handler in (r, t ++ t') else body
  | _ => body
  end.

(** [d[key]] *)
Definition subscript (d : gmap string string) (key : string) : M string :=
  match d !! key with
  | Some v => ret v
  | None => raise (Ext KeyError key)
  end.

(** [x in (a, b, ...)] *)
Definition in_tuple (x : string) (t : list string) : bool := existsb (String.eqb x) t.

(** [l.remove(x)]: the first occurrence; [None] for the ValueError of a
    missing element. *)
Fixpoint py_remove (x : string) (l : list string) : option (list string) :=
  match l with
  | [] => None
  | y :: r => if String.eqb x y then Some r else cons y <$> py_remove x r
  end.

(** ** The parsed command line *)

(** The [argparse.Namespace]; [orbitbase] and [opsimRun] are the attributes
    [setupArgs] adds ([None] before). *)
Record Namespace := {
  opsimDb : option string;
  orbitFile : option string;
  outDir : string;
  obsFile : option string;
  sqlConstraint : string;
  obsMetadata : option string;
  footprint : string;
  rFov : pyfloat;
  xTol : pyfloat;
  yTol : pyfloat;
  roughTol : pyfloat;
  obsType : string;
  obsCode : string;
  tStep : pyfloat;
  ephMode : string;
  prelimEphMode : string;
  ephType : string;
  logFile : option string;
  orbitbase : option string;
  opsimRun : option string
}.

(** What [parser.parse_args()] returns for an empty command line. *)
Definition default_args : Namespace := {|
  opsimDb := None; orbitFile := None; outDir := "."; obsFile := None;
  sqlConstraint := ""; obsMetadata := None; footprint := "circle";
  rFov := Float 175 (-2); xTol := Float 5 0; yTol := Float 3 0;
  roughTol := Float 20 0; obsType := "direct"; obsCode := "I11";
  tStep := Float 10 (-1); ephMode := "nbody"; prelimEphMode := "2body";
  ephType := "basic"; logFile := None; orbitbase := None; opsimRun := None |}.

(** [setupArgs], from the parsed namespace on. *)
Definition setupArgs (args : Namespace) : M Namespace :=
  match opsimDb args with
  | None => raise (Own ValueError "Must specify an opsim database output file.")
  | Some db =>
  match orbitFile args with
  | None => raise (Own ValueError "Must specify an orbit file.")
  | Some orb =>
  if negb (in_tuple (obsType args) ["linear"; "direct"])
  then raise (Own ValueError
         "Must choose linear or direct observation generation method (obsType).")
  else
    let orbitbase' := Py.join "." (Py.but_last (Py.split "." (Py.os_path_split_tail orb))) in
    let opsimRun' := Py.replace ".db" "" (Py.replace "_sqlite.db" "" (Py.os_path_split_tail db)) in
    let obsFile' :=
      match obsFile args with
      | None => Py.os_path_join (outDir args) (opsimRun' +:+ "__" +:+ orbitbase' +:+ "_obs.txt")
      | Some f => Py.os_path_join (outDir args) f
      end in
    let md := "Opsim " +:+ opsimRun' in
    let md := if (0 <? String.length (sqlConstraint args))%nat
              then md +:+ " selected with sqlconstraint " +:+ sqlConstraint args else md in
    let md := md +:+ " + Orbitfile " +:+ orbitbase' in
    let md := match obsMetadata args with
              | Some user => md +:+ Py.nl +:+ "# " +:+ user
              | None => md
              end in
    ret {| opsimDb := opsimDb args; orbitFile := orbitFile args; outDir := outDir args;
           obsFile := Some obsFile'; sqlConstraint := sqlConstraint args;
           obsMetadata := Some md; footprint := footprint args;
           rFov := rFov args; xTol := xTol args; yTol := yTol args;
           roughTol := roughTol args; obsType := obsType args; obsCode := obsCode args;
           tStep := tStep args; ephMode := ephMode args;
           prelimEphMode := prelimEphMode args; ephType := ephType args;
           logFile := logFile args; orbitbase := Some orbitbase';
           opsimRun := Some opsimRun' |}
  end end.

(** ** The world outside the script *)

(** The answers of the external calls.  The database handle is identified by
    the file it was opened on; an observation object by its constructor call. *)
Record World := {
  smo_version : string * string;
  maf_version : string * string;
  os_path_isfile : string -> bool;
  Orbits_init : reply unit;
  Orbits_readOrbits : string -> reply Orbits;
  OpsimDatabase_init : string -> reply unit;
  getColMap : string -> reply (gmap string string);
  query_columns : string -> list string -> option string -> nat -> reply unit;
  fetchMetricData : string -> list string -> option string -> reply SimData;
  opsdb_close : string -> reply unit;
  Obs_init : Obs -> reply unit;
  readFilters : Obs -> list string -> reply unit;
  calcColors : Obs -> string -> reply unit;
  run : Obs -> Orbits -> SimData -> reply unit
}.

Section Driver.

Context (w : World).

(** The three trial queries of [readOpsim]: a column whose query raises
    ValueError is appended to [failed_cols]; any other exception leaves the
    loop. *)
Fixpoint trial_queries (opsimfile : string) (constraint : option string)
    (more_cols failed_cols : list string) : M (list string) :=
  match more_cols with
  | [] => ret failed_cols
  | col :: rest =>
      let! failed_cols :=
        try_except_ValueError
          (let! _ := call (QueryColumns [col] constraint 1)
                          (query_columns w opsimfile [col] constraint 1) in
           ret failed_cols)
          (ret (failed_cols ++ [col])) in
      trial_queries opsimfile constraint rest failed_cols
  end.

(** [for col in failed_cols: more_cols.remove(col)] *)
Fixpoint remove_failed (failed_cols more_cols : list string) : M (list string) :=
  match failed_cols with
  | [] => ret more_cols
  | col :: rest =>
      match py_remove col more_cols with
      | Some more_cols => remove_failed rest more_cols
      | None => raise (Ext ValueError "list.remove(x): x not in list")
      end
  end.

Definition readOpsim (opsimfile : string) (constraint : option string)
    (footprint : string) (dbcols : option (list string))
  : M (SimData * gmap string string) :=
  let! _ := call (NewOpsimDatabase opsimfile) (OpsimDatabase_init w opsimfile) in
  let! colmap := call GetColMap (getColMap w opsimfile) in
  let colmap :=
    match colmap !! "rotSkyPos" with
    | None => <["rotSkyPos" := "rotSkyPos"]> colmap
    | Some _ => colmap
    end in
  let! c_mjd := subscript colmap "mjd" in
  let! c_night := subscript colmap "night" in
  let! c_ra := subscript colmap "ra" in
  let! c_dec := subscript colmap "dec" in
  let! c_filter := subscript colmap "filter" in
  let! c_exptime := subscript colmap "exptime" in
  let! c_seeingGeom := subscript colmap "seeingGeom" in
  let! c_depth := subscript colmap "fiveSigmaDepth" in
  let min_cols := [c_mjd; c_night; c_ra; c_dec; c_filter; c_exptime; c_seeingGeom; c_depth] in
  let! min_cols :=
    (if String.eqb footprint "camera"
     then let! c_rot := subscript colmap "rotSkyPos" in ret (min_cols ++ [c_rot])
     else ret min_cols) in
  let min_cols := match dbcols with Some extra => min_cols ++ extra | None => min_cols end in
  let min_cols := Py.list_set min_cols in
  let! _ := call (QueryColumns min_cols constraint 1)
                 (query_columns w opsimfile min_cols constraint 1) in
  let! c_rot := subscript colmap "rotSkyPos" in
  let! c_seeingEff := subscript colmap "seeingEff" in
  let more_cols := [c_rot; c_seeingEff; "solarElong"] in
  let! failed_cols := trial_queries opsimfile constraint more_cols [] in
  let! more_cols := remove_failed failed_cols more_cols in
  let cols := Py.list_set (min_cols ++ more_cols) in
  let! _ := emit (LoggingInfo (Fmt ("Querying for columns:" +:+ Py.nl +:+ " %s") [OList cols])) in
  let! simdata := call (FetchMetricData cols constraint)
                       (fetchMetricData w opsimfile cols constraint) in
  let! _ := call OpsdbClose (opsdb_close w opsimfile) in
  let! _ := emit (LoggingInfo (Fmt "Queried data from opsim %s, fetched %d visits."
                                   [OStr opsimfile; OInt (sd_len simdata)])) in
  ret (simdata, colmap).

Definition readOrbits (orbitfile : string) : M Orbits :=
  let! _ := emit (OsPathIsfile orbitfile) in
  let! _ := (if negb (os_path_isfile w orbitfile)
             then emit (LoggingCritical (Fmt "Could not find orbit file %s" [OStr orbitfile]))
             else ret tt) in
  let! _ := call NewOrbits (Orbits_init w) in
  let! orbits := call (OrbitsReadOrbits orbitfile) (Orbits_readOrbits w orbitfile) in
  let! _ := emit (LoggingInfo (Fmt "Read orbit information from %s" [OStr orbitfile])) in
  ret orbits.

(** [for sedname in sednames: obs.calcColors(sedname)] *)
Fixpoint calcColors_loop (obs : Obs) (sednames : list string) : M unit :=
  match sednames with
  | [] => ret tt
  | sedname :: rest =>
      let! _ := call (CalcColors obs sedname) (calcColors w obs sedname) in
      calcColors_loop obs rest
  end.

Definition _setupColors (obs : Obs) (filterlist : list string) (orbits : Orbits) : M Obs :=
  let! _ := call (ReadFilters obs filterlist) (readFilters w obs filterlist) in
  let! column :=
    match sed_filename orbits with
    | Some col => ret col
    | None => raise (Ext KeyError "sed_filename")
    end in
  let sednames := Py.np_unique column in
  let! _ := calcColors_loop obs sednames in
  ret obs.

(** The keyword arguments the two constructor calls of [runObs] share, in
    the order Python evaluates them. *)
Definition common_kwargs (args : Namespace) (colmap : gmap string string) : M obs_kwargs :=
  let! c_mjd := subscript colmap "mjd" in
  let! c_seeingGeom := subscript colmap "seeingGeom" in
  let! c_exptime := subscript colmap "exptime" in
  let! c_ra := subscript colmap "ra" in
  let! c_dec := subscript colmap "dec" in
  let! c_rot := subscript colmap "rotSkyPos" in
  let! c_deg := subscript colmap "raDecDeg" in
  ret {| kw_footprint := footprint args; kw_rFov := rFov args;
         kw_xTol := xTol args; kw_yTol := yTol args;
         kw_ephMode := ephMode args; kw_obsCode := obsCode args;
         kw_ephFile := None; kw_ephType := ephType args;
         kw_obsTimeCol := c_mjd; kw_obsTimeScale := "TAI";
         kw_seeingCol := c_seeingGeom; kw_visitExpTimeCol := c_exptime;
         kw_obsRA := c_ra; kw_obsDec := c_dec;
         kw_obsRotSkyPos := c_rot; kw_obsDegrees := c_deg;
         kw_outfileName := obsFile args; kw_tstep := tStep args;
         kw_obsMetadata := obsMetadata args |}.

(** The [if]/[elif]/[else] at the head of [runObs]: which constructor is
    called, and with what. *)
Definition runObs_construct (args : Namespace) (colmap : gmap string string) : M Obs :=
  if String.eqb (Py.lower (obsType args)) "linear" then
    let! _ := emit (Print "Using linear interpolation: ") in
    let! kw := common_kwargs args colmap in
    let obs := LinearObs kw in
    let! _ := call (NewObs obs) (Obs_init w obs) in
    ret obs
  else if String.eqb (Py.lower (obsType args)) "direct" then
    let! _ := emit (Print "Using exact ephemeris generation: ") in
    let! kw := common_kwargs args colmap in
    let obs := DirectObs kw (prelimEphMode args) (roughTol args) in
    let! _ := call (NewObs obs) (Obs_init w obs) in
    ret obs
  else raise (Own ValueError "Must use 'Linear' or 'Direct' for the obsType.").

Definition runObs (orbits : Orbits) (simdata : SimData) (args : Namespace)
    (colmap : gmap string string) : M unit :=
  let! obs := runObs_construct args colmap in
  let! column :=
    match sd_filter simdata with
    | Some col => ret col
    | None => raise (Ext ValueError "no field of name filter")
    end in
  let filterlist := Py.np_unique column in
  let! obs := _setupColors obs filterlist orbits in
  call (Run obs orbits simdata) (run w obs orbits simdata).

(** The [__main__] block, from the parsed namespace on. *)
Definition main (parsed : Namespace) : M unit :=
  let! args := setupArgs parsed in
  let! _ := emit (LoggingBasicConfig (logFile args)) in
  let! _ := emit (LoggingInfo (Fmt "# sims_movingObjects version %s (%s)"
                                   [OStr (fst (smo_version w)); OStr (snd (smo_version w))])) in
  let! _ := emit (LoggingInfo (Fmt "# sims_maf version: %s (%s)"
                                   [OStr (fst (maf_version w)); OStr (snd (maf_version w))])) in
  let! orbitfile :=
    match orbitFile args with
    | Some f => ret f
    | None => raise (Ext TypeError "os.path.isfile(None)")
    end in
  let! orbits := readOrbits orbitfile in
  let! opsimfile :=
    match opsimDb args with
    | Some f => ret f
    | None => raise (Ext TypeError "OpsimDatabase(None)")
    end in
  let! (opsimdata, colmap) :=
    readOpsim opsimfile (Some (sqlConstraint args)) (footprint args) None in
  let! _ := runObs orbits opsimdata args colmap in
  emit (LoggingInfo (Fmt "Completed successfully." [])).

End Driver.

(** ** A sample world

    An opsim run in the version-4 layout whose database has no [solarElong]
    column, and an orbit file with two spectral types. *)

Definition sample_colmap : gmap string string :=
  list_to_map
    [("mjd", "observationStartMJD"); ("night", "night"); ("ra", "fieldRA");
     ("dec", "fieldDec"); ("filter", "filter"); ("exptime", "visitExposureTime");
     ("seeingGeom", "seeingFwhmGeom"); ("seeingEff", "seeingFwhmEff");
     ("fiveSigmaDepth", "fiveSigmaDepth"); ("rotSkyPos", "rotSkyPos");
     ("raDecDeg", "True")].

Definition sample_orbits : Orbits := {| sed_filename := Some ["S.dat"; "C.dat"; "S.dat"] |}.

Definition sample_simdata : SimData := {| sd_len := 3; sd_filter := Some ["r"; "g"; "r"] |}.

Definition world_with (colmap : gmap string string) : World := {|
  smo_version := ("2.13", "abc");
  maf_version := ("2.13", "def");
  os_path_isfile := fun path => negb (String.eqb path "nowhere.des");
  Orbits_init := Done tt;
  Orbits_readOrbits := fun path =>
    if String.eqb path "nowhere.des" then Fails (OtherException "FileNotFoundError") path
    else Done sample_orbits;
  OpsimDatabase_init := fun _ => Done tt;
  getColMap := fun _ => Done colmap;
  query_columns := fun _ cols _ _ =>
    if bool_decide ("solarElong" ∈ cols) then Fails ValueError "no such column" else Done tt;
  fetchMetricData := fun _ _ _ => Done sample_simdata;
  opsdb_close := fun _ => Done tt;
  Obs_init := fun _ => Done tt;
  readFilters := fun _ _ => Done tt;
  calcColors := fun _ _ => Done tt;
  run := fun _ _ _ => Done tt
|}.

Definition sample_world : World := world_with sample_colmap.

(** The same run with a column map that does not know [rotSkyPos]. *)
Definition bare_colmap : gmap string string := delete "rotSkyPos" sample_colmap.

Definition bare_world : World := world_with bare_colmap.

Definition sample_args : Namespace := {|
  opsimDb := Some "/sims/kraken_2026.db"; orbitFile := Some "orbits/neos.des";
  outDir := "out"; obsFile := None; sqlConstraint := "night < 365";
  obsMetadata := Some "test run"; footprint := "camera";
  rFov := Float 175 (-2); xTol := Float 5 0; yTol := Float 3 0;
  roughTol := Float 20 0; obsType := "direct"; obsCode := "I11";
  tStep := Float 10 (-1); ephMode := "nbody"; prelimEphMode := "2body";
  ephType := "basic"; logFile := None; orbitbase := None; opsimRun := None |}.

(** A command line with a footprint the help text does not list. *)
Definition hexagon_args : Namespace := {|
  opsimDb := Some "kraken_2026.db"; orbitFile := Some "neos.des";
  outDir := "."; obsFile := None; sqlConstraint := "";
  obsMetadata := None; footprint := "hexagon";
  rFov := Float 175 (-2); xTol := Float 5 0; yTol := Float 3 0;
  roughTol := Float 20 0; obsType := "direct"; obsCode := "I11";
  tStep := Float 10 (-1); ephMode := "nbody"; prelimEphMode := "2body";
  ephType := "basic"; logFile := None; orbitbase := None; opsimRun := None |}.

(** The object that command line leads to. *)
Definition hexagon_obs : Obs :=
  DirectObs
    {| kw_footprint := "hexagon"; kw_rFov := Float 175 (-2);
       kw_xTol := Float 5 0; kw_yTol := Float 3 0;
       kw_ephMode := "nbody"; kw_obsCode := "I11";
       kw_ephFile := None; kw_ephType := "basic";
       kw_obsTimeCol := "observationStartMJD"; kw_obsTimeScale := "TAI";
       kw_seeingCol := "seeingFwhmGeom"; kw_visitExpTimeCol := "visitExposureTime";
       kw_obsRA := "fieldRA"; kw_obsDec := "fieldDec";
       kw_obsRotSkyPos := "rotSkyPos"; kw_obsDegrees := "True";
       kw_outfileName := Some "./kraken_2026__neos_obs.txt"; kw_tstep := Float 10 (-1);
       kw_obsMetadata := Some "Opsim kraken_2026 + Orbitfile neos" |}
    "2body" (Float 20 0).

(** A command line that is complete but spells the method with a capital. *)
Definition capital_args : Namespace := {|
  opsimDb := Some "kraken_2026.db"; orbitFile := Some "neos.des";
  outDir := "."; obsFile := None; sqlConstraint := "";
  obsMetadata := None; footprint := "circle";
  rFov := Float 175 (-2); xTol := Float 5 0; yTol := Float 3 0;
  roughTol := Float 20 0; obsType := "Linear"; obsCode := "I11";
  tStep := Float 10 (-1); ephMode := "nbody"; prelimEphMode := "2body";
  ephType := "basic"; logFile := None; orbitbase := None; opsimRun := None |}.

(** A command line whose orbit file has no extension. *)
Definition extensionless_args : Namespace := {|
  opsimDb := Some "kraken_2026.db"; orbitFile := Some "orbits";
  outDir := "."; obsFile := None; sqlConstraint := "";
  obsMetadata := None; footprint := "circle";
  rFov := Float 175 (-2); xTol := Float 5 0; yTol := Float 3 0;
  roughTol := Float 20 0; obsType := "direct"; obsCode := "I11";
  tStep := Float 10 (-1); ephMode := "nbody"; prelimEphMode := "2body";
  ephType := "basic"; logFile := None; orbitbase := None; opsimRun := None |}.

(** ** Reading a trace *)

(** The events of a trace that [f] picks, in order. *)
Fixpoint choose {B} (f : event -> option B) (t : list event) : list B :=
  match t with
  | [] => []
  | ev :: rest =>
      match f ev with
      | Some b => b :: choose f rest
      | None => choose f rest
      end
  end.

(** The observation objects constructed, in order. *)
Definition constructed (t : list event) : list Obs :=
  choose (fun ev => match ev with NewObs o => Some o | _ => None end) t.

(** The objects whose [run] method was called, in order. *)
Definition ran (t : list event) : list Obs :=
  choose (fun ev => match ev with Run o _ _ => Some o | _ => None end) t.

Definition is_Linear (o : Obs) : bool :=
  match o with LinearObs _ => true | DirectObs _ _ _ => false end.

(** The three steps of the driver; logging and printing belong to none. *)
Inductive step := ReadOrbits | ReadPointing | Generate.

Definition step_of (ev : event) : option step :=
  match ev with
  | OsPathIsfile _ | NewOrbits | OrbitsReadOrbits _ => Some ReadOrbits
  | NewOpsimDatabase _ | GetColMap | QueryColumns _ _ _
  | FetchMetricData _ _ | OpsdbClose => Some ReadPointing
  | NewObs _ | ReadFilters _ _ | CalcColors _ _ | Run _ _ _ => Some Generate
  | LoggingBasicConfig _ | LoggingInfo _ | LoggingCritical _ | Print _ => None
  end.

#[global] Instance step_eq_dec : EqDecision step.
Proof. solve_decision. Defined.

(** Runs of the same step count once. *)
Fixpoint squash (l : list step) : list step :=
  match l with
  | [] => []
  | a :: r =>
      match r with
      | b :: _ => if decide (a = b) then squash r else a :: squash r
      | [] => [a]
      end
  end.

(** The steps a run went through, in order. *)
Definition steps (t : list event) : list step := squash (choose step_of t).

(** An event of step [s], or of none. *)
Definition in_step (s : step) (ev : event) : Prop :=
  step_of ev = Some s \/ step_of ev = None.

(** Every external call of [m] satisfies [P]. *)
Definition calls_all {A} (P : event -> Prop) (m : M A) : Prop := Forall P (snd m).

(** [m] raises no exception of the script's own. *)
Definition no_own {A} (m : M A) : Prop := forall c msg, fst m <> Raises (Own c msg).

(** Constructs objects with the footprint [fp] only. *)
Definition footprint_is (fp : string) (ev : event) : Prop :=
  forall o, ev = NewObs o -> kw_footprint (kwargs_of o) = fp.

(** [m] after the calls [t]. *)
Definition prepend {A} (t : list event) (m : M A) : M A := (fst m, t ++ snd m).

(** Whether the trial query of one optional column raises ValueError. *)
Definition trial_fails (w : World) (opsimfile : string) (constraint : option string)
    (col : string) : bool :=
  match query_columns w opsimfile [col] constraint 1 with
  | Fails ValueError _ => true
  | _ => false
  end.

(** A column is harmless when its trial query returns or raises ValueError. *)
Definition harmless (w : World) (opsimfile : string) (constraint : option string)
    (col : string) : Prop :=
  query_columns w opsimfile [col] constraint 1 = Done tt \/
  trial_fails w opsimfile constraint col = true.

(** The column map after the [rotSkyPos] fallback. *)
Definition with_rotSkyPos (colmap : gmap string string) : gmap string string :=
  if decide ("rotSkyPos" ∈ dom colmap) then colmap
  else <["rotSkyPos" := "rotSkyPos"]> colmap.

(** ** The derived names as the specification words them *)

Module Spec.

(** A file name without its last extension: the text before the last dot,
    and the whole name when it has no dot. *)
Definition without_last_extension (name : string) : string :=
  match Py.rfind "." name with
  | Some i => substring 0 i name
  | None => name
  end.

(** The text before the last dot, and nothing when there is no dot. *)
Definition before_last_dot (name : string) : string :=
  match Py.rfind "." name with
  | Some i => substring 0 i name
  | None => EmptyString
  end.

(** The run name: the database file name with ["_sqlite.db"] and [".db"]
    taken out. *)
Definition run_name (opsimDb : string) : string :=
  Py.replace ".db" "" (Py.replace "_sqlite.db" "" (Py.os_path_split_tail opsimDb)).

(** The output path the specification describes. *)
Definition derived_obsFile (outDir opsimDb orbitFile : string) (obsFile : option string)
  : string :=
  match obsFile with
  | None =>
      Py.os_path_join outDir
        (run_name opsimDb +:+ "__"
         +:+ without_last_extension (Py.os_path_split_tail orbitFile) +:+ "_obs.txt")
  | Some given => Py.os_path_join outDir given
  end.

(** The provenance line [setupArgs] stores in [obsMetadata]. *)
Definition provenance (run constraint base : string) (user : option string) : string :=
  "Opsim " +:+ run
  +:+ (if String.eqb constraint "" then "" else " selected with sqlconstraint " +:+ constraint)
  +:+ " + Orbitfile " +:+ base
  +:+ (match user with Some u => Py.nl +:+ "# " +:+ u | None => "" end).

End Spec.

(** ** Predicates on names and on runs *)

(** The character [c] does not occur in [s]. *)
Fixpoint lacks (c : ascii) (s : string) : bool :=
  match s with
  | EmptyString => true
  | String a r => negb (Ascii.eqb a c) && lacks c r
  end.

(** [s.find(c)]: the index of the first occurrence. *)
Fixpoint find (c : ascii) (s : string) : option nat :=
  match s with
  | EmptyString => None
  | String a r => if Ascii.eqb a c then Some 0%nat else S <$> find c r
  end.

(** If the call [ev] was made at all, the computation went as [Q] says. *)
Definition guarded {A} (ev : event) (Q : M A -> Prop) (m : M A) : Prop :=
  ev ∈ snd m -> Q m.

(** The sed names [calcColors] was called with, in order. *)
Definition colours_computed (t : list event) : list string :=
  choose (fun ev => match ev with CalcColors _ s => Some s | _ => None end) t.

(** The filter lists [readFilters] was called with, in order. *)
Definition filters_read (t : list event) : list (list string) :=
  choose (fun ev => match ev with ReadFilters _ fl => Some fl | _ => None end) t.


(** ** Spelling up to the case of the letters *)

(** The capital of a small letter; any other character is left alone. *)
Definition upper_ascii (c : ascii) : ascii :=
  let n := nat_of_ascii c in
  if (97 <=? n)%nat && (n <=? 122)%nat then ascii_of_nat (n - 32) else c.

(** [b] is the letter [a], small or capital. *)
Definition same_letter (a b : ascii) : bool :=
  Ascii.eqb b a || Ascii.eqb b (upper_ascii a).

(** [s] spells [word], letter by letter, in any mix of small and capital. *)
Fixpoint same_letters (word s : string) : bool :=
  match word, s with
  | EmptyString, EmptyString => true
  | String a w, String b r => same_letter a b && same_letters w r
  | _, _ => false
  end.

(** The letters of ['linear'] and ['direct']. *)
Definition method_letters : list ascii :=
  ["l"; "i"; "n"; "e"; "a"; "r"; "d"; "c"; "t"]%char.

(** A command line that spells the method in capitals. *)
Definition shouting_args : Namespace := {|
  opsimDb := Some "kraken_2026.db"; orbitFile := Some "neos.des";
  outDir := "."; obsFile := None; sqlConstraint := "";
  obsMetadata := None; footprint := "circle";
  rFov := Float 175 (-2); xTol := Float 5 0; yTol := Float 3 0;
  roughTol := Float 20 0; obsType := "DIRECT"; obsCode := "I11";
  tStep := Float 10 (-1); ephMode := "nbody"; prelimEphMode := "2body";
  ephType := "basic"; logFile := None; orbitbase := None; opsimRun := None |}.

(** A command line that names a method the script does not have. *)
Definition cubic_args : Namespace := {|
  opsimDb := Some "kraken_2026.db"; orbitFile := Some "neos.des";
  outDir := "."; obsFile := None; sqlConstraint := "";
  obsMetadata := None; footprint := "circle";
  rFov := Float 175 (-2); xTol := Float 5 0; yTol := Float 3 0;
  roughTol := Float 20 0; obsType := "cubic"; obsCode := "I11";
  tStep := Float 10 (-1); ephMode := "nbody"; prelimEphMode := "2body";
  ephType := "basic"; logFile := None; orbitbase := None; opsimRun := None |}.

(** A command line with an absolute output file. *)
Definition absolute_args : Namespace := {|
  opsimDb := Some "kraken_2026.db"; orbitFile := Some "neos.des";
  outDir := "out"; obsFile := Some "/tmp/obs.txt"; sqlConstraint := "";
  obsMetadata := None; footprint := "circle";
  rFov := Float 175 (-2); xTol := Float 5 0; yTol := Float 3 0;
  roughTol := Float 20 0; obsType := "direct"; obsCode := "I11";
  tStep := Float 10 (-1); ephMode := "nbody"; prelimEphMode := "2body";
  ephType := "basic"; logFile := None; orbitbase := None; opsimRun := None |}.

(** The sample world with another answer to the column queries. *)
Definition world_querying (q : list string -> reply unit) : World := {|
  smo_version := smo_version sample_world;
  maf_version := maf_version sample_world;
  os_path_isfile := os_path_isfile sample_world;
  Orbits_init := Orbits_init sample_world;
  Orbits_readOrbits := Orbits_readOrbits sample_world;
  OpsimDatabase_init := OpsimDatabase_init sample_world;
  getColMap := getColMap sample_world;
  query_columns := fun _ cols _ _ => q cols;
  fetchMetricData := fetchMetricData sample_world;
  opsdb_close := opsdb_close sample_world;
  Obs_init := Obs_init sample_world;
  readFilters := readFilters sample_world;
  calcColors := calcColors sample_world;
  run := run sample_world
|}.

(** A database without the [night] column. *)
Definition nightless_world : World :=
  world_querying (fun cols =>
    if bool_decide ("night" ∈ cols) then Fails ValueError "no such column: night"
    else Done tt).

(** A database that is locked when [seeingFwhmEff] is tried. *)
Definition locked_world : World :=
  world_querying (fun cols =>
    if bool_decide (cols = ["seeingFwhmEff"])
    then Fails (OtherException "OperationalError") "database is locked"
    else Done tt).

(** ** The string operations and [setupArgs] on sample inputs *)

Example lower_Linear : Py.lower "LiNeAr" = "linear".
Proof. reflexivity. Qed.

Example split_dots : Py.split "." "a.b.txt" = ["a"; "b"; "txt"].
Proof. reflexivity. Qed.

Example split_nodot : Py.split "." "orbits" = ["orbits"].
Proof. reflexivity. Qed.

Example replace_db : Py.replace ".db" "" (Py.replace "_sqlite.db" "" "kraken_2026_sqlite.db") = "kraken_2026".
Proof. reflexivity. Qed.

Example replace_inner : Py.replace ".db" "" "a.dbx.db" = "ax".
Proof. reflexivity. Qed.

Example split_tail_path : Py.os_path_split_tail "/data/orbits/neos.des" = "neos.des".
Proof. reflexivity. Qed.

Example join_paths :
  Py.os_path_join "." "x.txt" = "./x.txt" /\ Py.os_path_join "out/" "x.txt" = "out/x.txt"
  /\ Py.os_path_join "out" "/abs/x.txt" = "/abs/x.txt" /\ Py.os_path_join "" "x.txt" = "x.txt".
Proof. repeat split; reflexivity. Qed.

Example unique_filters : Py.np_unique ["r"; "g"; "r"; "i"; "g"] = ["g"; "i"; "r"].
Proof. vm_compute. reflexivity. Qed.

Example setupArgs_typical :
  fst (setupArgs {| opsimDb := Some "/sims/kraken_2026.db"; orbitFile := Some "orbits/neos.des";
                    outDir := "out"; obsFile := None; sqlConstraint := "night < 365";
                    obsMetadata := Some "test run"; footprint := "camera";
                    rFov := Float 175 (-2); xTol := Float 5 0; yTol := Float 3 0;
                    roughTol := Float 20 0; obsType := "direct"; obsCode := "I11";
                    tStep := Float 10 (-1); ephMode := "nbody"; prelimEphMode := "2body";
                    ephType := "basic"; logFile := None; orbitbase := None; opsimRun := None |})
  = Returns
      {| opsimDb := Some "/sims/kraken_2026.db"; orbitFile := Some "orbits/neos.des";
         outDir := "out"; obsFile := Some "out/kraken_2026__neos_obs.txt";
         sqlConstraint := "night < 365";
         obsMetadata := Some ("Opsim kraken_2026 selected with sqlconstraint night < 365 + Orbitfile neos"
                              +:+ Py.nl +:+ "# test run");
         footprint := "camera";
         rFov := Float 175 (-2); xTol := Float 5 0; yTol := Float 3 0;
         roughTol := Float 20 0; obsType := "direct"; obsCode := "I11";
         tStep := Float 10 (-1); ephMode := "nbody"; prelimEphMode := "2body";
         ephType := "basic"; logFile := None; orbitbase := Some "neos";
         opsimRun := Some "kraken_2026" |}.
Proof. reflexivity. Qed.

(** ** Laws of the effect monad *)

Lemma append_assoc (a b c : string) : (a +:+ b) +:+ c = a +:+ (b +:+ c).
Proof.
  induction a as [|x a IH]; [reflexivity|].
  change (String x ((a +:+ b) +:+ c) = String x (a +:+ (b +:+ c))). now rewrite IH.
Qed.

Lemma append_empty_r (a : string) : a +:+ "" = a.
Proof.
  induction a as [|x a IH]; [reflexivity|].
  change (String x (a +:+ "") = String x a). now rewrite IH.
Qed.

Section MonadLaws.

Context {A B : Type}.

Lemma fst_bind (m : M A) (k : A -> M B) :
  fst (bind m k) = match fst m with Returns a => fst (k a) | Raises e => Raises e end.
Proof. destruct m as [[a|e] t]; unfold bind; simpl; [destruct (k a) | ]; reflexivity. Qed.

Lemma snd_bind (m : M A) (k : A -> M B) :
  snd (bind m k) = snd m ++ match fst m with Returns a => snd (k a) | Raises _ => [] end.
Proof.
  destruct m as [[a|e] t]; unfold bind; simpl;
    [destruct (k a); reflexivity | now rewrite app_nil_r].
Qed.

Lemma bind_Returns (m : M A) (k : A -> M B) (b : B) (t : list event) :
  bind m k = (Returns b, t) ->
  exists a t1 t2, m = (Returns a, t1) /\ k a = (Returns b, t2) /\ t = t1 ++ t2.
Proof.
  destruct m as [[a|e] t1]; unfold bind; simpl; [|discriminate].
  destruct (k a) as [r t2] eqn:Hk. intros [= -> <-]. now exists a, t1, t2.
Qed.

Lemma bind_Raises (m : M A) (k : A -> M B) (e : exn) (t : list event) :
  bind m k = (Raises e, t) ->
  m = (Raises e, t) \/
  exists a t1 t2, m = (Returns a, t1) /\ k a = (Raises e, t2) /\ t = t1 ++ t2.
Proof.
  destruct m as [[a|e'] t1]; unfold bind; simpl.
  - destruct (k a) as [r t2] eqn:Hk. intros [= -> <-]. right. now exists a, t1, t2.
  - intros [= -> ->]. now left.
Qed.

End MonadLaws.

Lemma call_Returns {A} (ev : event) (r : reply A) (a : A) (t : list event) :
  call ev r = (Returns a, t) -> r = Done a /\ t = [ev].
Proof. destruct r; simpl; intros [= <- <-] || discriminate. now split. Qed.

Lemma subscript_Returns (d : gmap string string) (key v : string) (t : list event) :
  subscript d key = (Returns v, t) -> d !! key = Some v /\ t = [].
Proof. unfold subscript. destruct (d !! key); simpl; [intros [= -> <-]; now split | discriminate]. Qed.

Lemma subscript_snd (d : gmap string string) (key : string) : snd (subscript d key) = [].
Proof. unfold subscript. now destruct (d !! key). Qed.

Lemma subscript_not_Own (d : gmap string string) (key : string) c msg :
  fst (subscript d key) <> Raises (Own c msg).
Proof. unfold subscript. destruct (d !! key); simpl; congruence. Qed.

(** ** [setupArgs] *)

(** What a namespace that passed [setupArgs] looks like. *)
Lemma setupArgs_Returns (args args' : Namespace) (t : list event) :
  setupArgs args = (Returns args', t) ->
  exists db orb,
    opsimDb args = Some db /\ orbitFile args = Some orb /\
    in_tuple (obsType args) ["linear"; "direct"] = true /\ t = [] /\
    obsType args' = obsType args /\ footprint args' = footprint args /\
    opsimDb args' = Some db /\ orbitFile args' = Some orb /\
    sqlConstraint args' = sqlConstraint args /\ logFile args' = logFile args /\
    orbitbase args' =
      Some (Py.join "." (Py.but_last (Py.split "." (Py.os_path_split_tail orb)))) /\
    opsimRun args' = Some (Spec.run_name db).
Proof.
  unfold setupArgs. destruct (opsimDb args) as [db|] eqn:Hdb; [|discriminate].
  destruct (orbitFile args) as [orb|] eqn:Horb; [|discriminate].
  destruct (in_tuple (obsType args) ["linear"; "direct"]) eqn:Hty; simpl; [|discriminate].
  intros [= <- <-]. exists db, orb. simpl. repeat split; reflexivity.
Qed.

Lemma in_tuple_linear_direct (s : string) :
  in_tuple s ["linear"; "direct"] = true <-> s = "linear" \/ s = "direct".
Proof.
  unfold in_tuple. simpl. rewrite !orb_true_iff, !String.eqb_eq. intuition discriminate.
Qed.

(** ** Facts that hold along every path of a computation *)

Section Compositional.

Context {A B : Type} (P : event -> Prop).

Lemma calls_all_bind (m : M A) (k : A -> M B) :
  calls_all P m -> (forall a, calls_all P (k a)) -> calls_all P (bind m k).
Proof.
  unfold calls_all. intros Hm Hk. rewrite snd_bind. apply Forall_app. split; [assumption|].
  destruct (fst m); [apply Hk | constructor].
Qed.

Lemma calls_all_ret (a : A) : calls_all P (ret a).
Proof. constructor. Qed.

Lemma calls_all_raise (e : exn) : calls_all P (@raise A e).
Proof. constructor. Qed.

Lemma calls_all_call (ev : event) (r : reply A) : P ev -> calls_all P (call ev r).
Proof. intros H. unfold calls_all. simpl. now repeat constructor. Qed.

Lemma calls_all_emit (ev : event) : P ev -> calls_all P (emit ev).
Proof. intros H. unfold calls_all. simpl. now repeat constructor. Qed.

Lemma calls_all_subscript (d : gmap string string) (key : string) :
  calls_all P (subscript d key).
Proof. unfold calls_all. rewrite subscript_snd. constructor. Qed.

Lemma calls_all_try (body handler : M A) :
  calls_all P body -> calls_all P handler ->
  calls_all P (try_except_ValueError body handler).
Proof.
  unfold calls_all, try_except_ValueError. intros Hb Hh.
  destruct body as [[a|e] t]; [assumption|].
  destruct (is_ValueError e); [|assumption].
  destruct handler as [r t']. simpl in *. apply Forall_app. now split.
Qed.

Lemma no_own_bind (m : M A) (k : A -> M B) :
  no_own m -> (forall a, no_own (k a)) -> no_own (bind m k).
Proof.
  unfold no_own. intros Hm Hk c msg. rewrite fst_bind.
  destruct (fst m) as [a|e] eqn:E; [apply Hk|].
  intros [= ->]. now apply (Hm c msg).
Qed.

Lemma no_own_ret (a : A) : no_own (ret a).
Proof. intros c msg. discriminate. Qed.

Lemma no_own_call (ev : event) (r : reply A) : no_own (call ev r).
Proof. intros c msg. destruct r; discriminate. Qed.

Lemma no_own_raise_Ext (c : exn_class) (msg : string) : no_own (@raise A (Ext c msg)).
Proof. intros c' msg'. discriminate. Qed.

Lemma no_own_try (body handler : M A) :
  no_own body -> no_own handler -> no_own (try_except_ValueError body handler).
Proof.
  unfold no_own, try_except_ValueError. intros Hb Hh c msg.
  destruct body as [[a|e] t]; [discriminate|].
  destruct (is_ValueError e) eqn:E; [|apply Hb].
  destruct handler as [r t']. apply Hh.
Qed.

End Compositional.

Lemma no_own_emit (ev : event) : no_own (emit ev).
Proof. intros c msg. discriminate. Qed.

Lemma no_own_subscript (d : gmap string string) (key : string) : no_own (subscript d key).
Proof. intros c msg. apply subscript_not_Own. Qed.

Create HintDb along discriminated.

#[global] Hint Resolve calls_all_ret calls_all_raise calls_all_subscript
  no_own_ret no_own_call no_own_raise_Ext no_own_emit no_own_subscript : along.

(** Walks through a computation, leaving the property of each call to
    [auto] and splitting on every branch of the code. *)
Ltac along :=
  repeat first
    [ apply calls_all_bind; [|intros]
    | apply no_own_bind; [|intros]
    | apply calls_all_try
    | apply no_own_try
    | apply calls_all_call
    | apply calls_all_emit
    | solve [auto with along]
    | match goal with
      | |- calls_all _ (match ?x with _ => _ end) => destruct x
      | |- no_own (match ?x with _ => _ end) => destruct x
      end ].

(** ** The calls each function makes *)

Section Calls.

Context (w : World).

Lemma trial_queries_calls opsimfile constraint more_cols failed_cols :
  calls_all (in_step ReadPointing) (trial_queries w opsimfile constraint more_cols failed_cols).
Proof.
  revert failed_cols. induction more_cols as [|col rest IH]; intros failed_cols; simpl.
  - along.
  - along; solve [now left | apply IH].
Qed.

Lemma remove_failed_calls (P : event -> Prop) failed_cols more_cols :
  calls_all P (remove_failed failed_cols more_cols).
Proof.
  revert more_cols. induction failed_cols as [|col rest IH]; intros more_cols; simpl.
  - along.
  - destruct (py_remove col more_cols); [apply IH | along].
Qed.

Lemma readOpsim_calls opsimfile constraint footprint dbcols :
  calls_all (in_step ReadPointing) (readOpsim w opsimfile constraint footprint dbcols).
Proof.
  unfold readOpsim.
  along; try solve [now left | now right | apply trial_queries_calls | apply remove_failed_calls].
Qed.

Lemma readOrbits_calls orbitfile :
  calls_all (in_step ReadOrbits) (readOrbits w orbitfile).
Proof. unfold readOrbits. along; solve [now left | now right]. Qed.

Lemma calcColors_loop_calls obs sednames :
  calls_all (fun ev => exists s, ev = CalcColors obs s) (calcColors_loop w obs sednames).
Proof.
  induction sednames as [|s rest IH]; simpl; along; first [apply IH | eauto].
Qed.

End Calls.

(** ** What a computation that returned has done *)

Lemma emit_Returns (ev : event) (u : unit) (t : list event) :
  emit ev = (Returns u, t) -> t = [ev].
Proof. now intros [= <-]. Qed.

Lemma ret_Returns {A} (a b : A) (t : list event) : ret a = (Returns b, t) -> a = b /\ t = [].
Proof. now intros [= -> <-]. Qed.

(** Splits [H : (let! x := m in k) = (Returns b, t)] into the two halves. *)
Ltac inv_bind H Hm :=
  let a := fresh "a" in
  let t1 := fresh "t1" in
  let t2 := fresh "t2" in
  apply bind_Returns in H; destruct H as (a & t1 & t2 & Hm & H & ->); cbv beta in H.

Section Returned.

Context (w : World).

Lemma calcColors_loop_Returns obs sednames u t :
  calcColors_loop w obs sednames = (Returns u, t) ->
  t = map (CalcColors obs) sednames /\
  Forall (fun s => calcColors w obs s = Done tt) sednames.
Proof.
  revert t. induction sednames as [|s rest IH]; simpl; intros t H.
  - apply ret_Returns in H as [_ ->]. now split.
  - inv_bind H Hc. apply call_Returns in Hc as [Hc ->]. destruct a.
    apply IH in H as [-> Hall]. split; [reflexivity | now constructor].
Qed.

Lemma _setupColors_Returns obs filterlist orbits obs' t :
  _setupColors w obs filterlist orbits = (Returns obs', t) ->
  obs' = obs /\ readFilters w obs filterlist = Done tt /\
  exists column,
    sed_filename orbits = Some column /\
    t = ReadFilters obs filterlist :: map (CalcColors obs) (Py.np_unique column).
Proof.
  unfold _setupColors. intros H.
  inv_bind H Hf. apply call_Returns in Hf as [Hf ->]. destruct a.
  inv_bind H Hcol. destruct (sed_filename orbits) as [column|]; [|discriminate].
  apply ret_Returns in Hcol as [<- ->].
  inv_bind H Hloop. apply calcColors_loop_Returns in Hloop as [-> _].
  apply ret_Returns in H as [<- ->].
  repeat split; [assumption|]. exists column. split; [reflexivity|].
  simpl. now rewrite app_nil_r.
Qed.

Lemma common_kwargs_Returns args colmap kw t :
  common_kwargs args colmap = (Returns kw, t) ->
  t = [] /\ kw_footprint kw = footprint args /\
  kw_outfileName kw = obsFile args /\ kw_obsMetadata kw = obsMetadata args.
Proof.
  unfold common_kwargs. intros H.
  repeat (let Hs := fresh "Hs" in inv_bind H Hs; apply subscript_Returns in Hs as [Hs ->]).
  apply ret_Returns in H as [<- ->]. simpl. repeat split.
Qed.

Lemma common_kwargs_snd args colmap : snd (common_kwargs args colmap) = [].
Proof.
  unfold common_kwargs, subscript.
  repeat match goal with |- context [colmap !! ?k] => destruct (colmap !! k) end;
    reflexivity.
Qed.

Lemma runObs_construct_Returns args colmap obs t :
  runObs_construct w args colmap = (Returns obs, t) ->
  Obs_init w obs = Done tt /\
  exists kw banner,
    common_kwargs args colmap = (Returns kw, []) /\
    t = [Print banner; NewObs obs] /\
    ((Py.lower (obsType args) = "linear" /\ obs = LinearObs kw) \/
     (Py.lower (obsType args) = "direct" /\
      obs = DirectObs kw (prelimEphMode args) (roughTol args))).
Proof.
  unfold runObs_construct. intros H.
  destruct (String.eqb (Py.lower (obsType args)) "linear") eqn:Hlin;
    [|destruct (String.eqb (Py.lower (obsType args)) "direct") eqn:Hdir; [|discriminate]].
  - apply String.eqb_eq in Hlin.
    inv_bind H Hp. apply emit_Returns in Hp as ->.
    inv_bind H Hkw. pose proof (common_kwargs_Returns _ _ _ _ Hkw) as [-> _].
    inv_bind H Hc. apply call_Returns in Hc as [Hc ->]. destruct a1.
    apply ret_Returns in H as [<- ->]. split; [assumption|].
    eexists _, _. split; [eassumption|]. split; [reflexivity|]. now left.
  - apply String.eqb_eq in Hdir.
    inv_bind H Hp. apply emit_Returns in Hp as ->.
    inv_bind H Hkw. pose proof (common_kwargs_Returns _ _ _ _ Hkw) as [-> _].
    inv_bind H Hc. apply call_Returns in Hc as [Hc ->]. destruct a1.
    apply ret_Returns in H as [<- ->]. split; [assumption|].
    eexists _, _. split; [eassumption|]. split; [reflexivity|]. now right.
Qed.

Lemma runObs_Returns orbits simdata args colmap u t :
  runObs w orbits simdata args colmap = (Returns u, t) ->
  exists obs banner filters seds,
    runObs_construct w args colmap = (Returns obs, [Print banner; NewObs obs]) /\
    sd_filter simdata = Some filters /\ sed_filename orbits = Some seds /\
    run w obs orbits simdata = Done tt /\
    t = [Print banner; NewObs obs; ReadFilters obs (Py.np_unique filters)]
        ++ map (CalcColors obs) (Py.np_unique seds) ++ [Run obs orbits simdata].
Proof.
  unfold runObs. intros H.
  inv_bind H Hc. pose proof (runObs_construct_Returns _ _ _ _ Hc) as (_ & kw & banner & _ & -> & _).
  inv_bind H Hf. destruct (sd_filter simdata) as [filters|]; [|discriminate].
  apply ret_Returns in Hf as [<- ->].
  inv_bind H Hs. apply _setupColors_Returns in Hs as (-> & _ & seds & Hseds & ->).
  apply call_Returns in H as [H ->]. destruct u.
  exists a, banner, filters, seds. repeat split; assumption.
Qed.

End Returned.

(** ** Running a computation forward *)

Section Forward.

Context {A B : Type}.

Lemma bind_ret (a : A) (k : A -> M B) : bind (ret a) k = k a.
Proof. unfold bind, ret. now destruct (k a). Qed.

Lemma bind_raise (e : exn) (k : A -> M B) : bind (raise e) k = raise e.
Proof. reflexivity. Qed.

Lemma bind_call_Done (ev : event) (a : A) (k : A -> M B) :
  bind (call ev (Done a)) k = prepend [ev] (k a).
Proof. unfold bind, call, prepend. now destruct (k a). Qed.

Lemma bind_call_Fails (ev : event) (c : exn_class) (msg : string) (k : A -> M B) :
  bind (call ev (Fails c msg)) k = (Raises (Ext c msg), [ev]).
Proof. reflexivity. Qed.

Lemma bind_prepend (t : list event) (m : M A) (k : A -> M B) :
  bind (prepend t m) k = prepend t (bind m k).
Proof.
  unfold bind, prepend. destruct m as [[a|e] t1]; simpl.
  - destruct (k a). simpl. now rewrite app_assoc.
  - reflexivity.
Qed.

End Forward.

Lemma bind_subscript {B} (d : gmap string string) (key v : string) (k : string -> M B) :
  d !! key = Some v -> bind (subscript d key) k = k v.
Proof. intros H. unfold subscript. rewrite H. apply bind_ret. Qed.

Lemma bind_emit {B} (ev : event) (k : unit -> M B) : bind (emit ev) k = prepend [ev] (k tt).
Proof. unfold bind, emit, prepend. now destruct (k tt). Qed.

Lemma prepend_prepend {A} (t1 t2 : list event) (m : M A) :
  prepend t1 (prepend t2 m) = prepend (t1 ++ t2) m.
Proof. unfold prepend. simpl. now rewrite app_assoc. Qed.

Lemma prepend_pair {A} (t t' : list event) (r : outcome A) : prepend t (r, t') = (r, t ++ t').
Proof. reflexivity. Qed.

(** ** The trial queries of [readOpsim] *)

Section Trials.

Context (w : World) (opsimfile : string) (constraint : option string).

(** One turn of the loop. *)
Lemma trial_turn (col : string) (failed_cols : list string) :
  try_except_ValueError
    (let! _ := call (QueryColumns [col] constraint 1) (query_columns w opsimfile [col] constraint 1) in
     ret failed_cols)
    (ret (failed_cols ++ [col]))
  = match query_columns w opsimfile [col] constraint 1 with
    | Done _ => (Returns failed_cols, [QueryColumns [col] constraint 1])
    | Fails ValueError _ => (Returns (failed_cols ++ [col]), [QueryColumns [col] constraint 1])
    | Fails c msg => (Raises (Ext c msg), [QueryColumns [col] constraint 1])
    end.
Proof.
  destruct (query_columns w opsimfile [col] constraint 1) as [u|c msg];
    [reflexivity | destruct c; reflexivity].
Qed.

Lemma trial_queries_harmless (more_cols failed_cols : list string) :
  Forall (harmless w opsimfile constraint) more_cols ->
  trial_queries w opsimfile constraint more_cols failed_cols
  = (Returns (failed_cols ++ List.filter (trial_fails w opsimfile constraint) more_cols),
     map (fun col => QueryColumns [col] constraint 1) more_cols).
Proof.
  revert failed_cols. induction more_cols as [|col rest IH]; intros failed_cols Hall.
  - simpl. now rewrite app_nil_r.
  - apply Forall_cons in Hall as [Hcol Hrest].
    cbn [trial_queries List.filter map]. rewrite trial_turn.
    unfold trial_fails at 1.
    destruct Hcol as [Hcol|Hcol].
    + rewrite Hcol. unfold bind. rewrite (IH _ Hrest). reflexivity.
    + unfold trial_fails in Hcol.
      destruct (query_columns w opsimfile [col] constraint 1) as [u|c msg]; [discriminate|].
      destruct c; try discriminate.
      unfold bind. rewrite (IH _ Hrest). now rewrite <- app_assoc.
Qed.

Lemma trial_queries_Returns (more_cols failed_cols failed' : list string) (t : list event) :
  trial_queries w opsimfile constraint more_cols failed_cols = (Returns failed', t) ->
  Forall (harmless w opsimfile constraint) more_cols.
Proof.
  revert failed_cols t. induction more_cols as [|col rest IH]; intros failed_cols t H.
  - constructor.
  - cbn [trial_queries] in H. rewrite trial_turn in H.
    inv_bind H Hq. constructor; [|eapply IH; eassumption].
    unfold harmless, trial_fails.
    destruct (query_columns w opsimfile [col] constraint 1) as [[]|c msg]; [now left|].
    destruct c; try discriminate. now right.
Qed.

End Trials.

(** ** Removing the failed columns *)

Lemma py_remove_after (pre : list string) (x : string) (l : list string) :
  x ∉ pre -> py_remove x (pre ++ x :: l) = Some (pre ++ l).
Proof.
  induction pre as [|y pre IH]; intros Hx; simpl.
  - now rewrite String.eqb_refl.
  - apply not_elem_of_cons in Hx as [Hxy Hpre].
    destruct (String.eqb_spec x y); [contradiction|]. now rewrite (IH Hpre).
Qed.

(** Removing, one by one, the columns a test picks leaves the others, in
    their order: [l.remove] never misses. *)
Lemma remove_failed_filter (P : string -> bool) (pre l : list string) :
  Forall (fun y => P y = false) pre ->
  remove_failed (List.filter P l) (pre ++ l)
  = (Returns (pre ++ List.filter (fun y => negb (P y)) l), []).
Proof.
  revert pre. induction l as [|x l IH]; intros pre Hpre.
  - reflexivity.
  - cbn [List.filter]. destruct (P x) eqn:Hx; cbn [negb remove_failed].
    + rewrite py_remove_after; [now apply IH|].
      intros Hin. rewrite Forall_forall in Hpre. apply Hpre in Hin. congruence.
    + replace (pre ++ x :: l) with ((pre ++ [x]) ++ l) by now rewrite <- app_assoc.
      rewrite IH; [now rewrite <- app_assoc|].
      apply Forall_app. split; [assumption | now repeat constructor].
Qed.

Lemma remove_failed_all (P : string -> bool) (l : list string) :
  remove_failed (List.filter P l) l = (Returns (List.filter (fun y => negb (P y)) l), []).
Proof. apply (remove_failed_filter P [] l). constructor. Qed.

Lemma bind_Returns_pair {A B} (a : A) (t : list event) (k : A -> M B) :
  bind (Returns a, t) k = prepend t (k a).
Proof. unfold bind, prepend. now destruct (k a). Qed.

(** ** The [rotSkyPos] fallback *)

Lemma rotSkyPos_fallback (colmap : gmap string string) :
  match colmap !! "rotSkyPos" with
  | None => <["rotSkyPos" := "rotSkyPos"]> colmap
  | Some _ => colmap
  end = with_rotSkyPos colmap.
Proof.
  unfold with_rotSkyPos. destruct (colmap !! "rotSkyPos") as [v|] eqn:E.
  - rewrite decide_True; [reflexivity|]. apply elem_of_dom. eauto.
  - rewrite decide_False; [reflexivity|]. rewrite elem_of_dom, E. now intros [? ?].
Qed.

Lemma with_rotSkyPos_lookup (colmap : gmap string string) :
  with_rotSkyPos colmap !! "rotSkyPos" = Some (default "rotSkyPos" (colmap !! "rotSkyPos")).
Proof.
  rewrite <- rotSkyPos_fallback. destruct (colmap !! "rotSkyPos") as [v|] eqn:E; simpl.
  - exact E.
  - apply lookup_insert_eq.
Qed.

Lemma with_rotSkyPos_other (colmap : gmap string string) (key : string) :
  key <> "rotSkyPos" -> with_rotSkyPos colmap !! key = colmap !! key.
Proof.
  intros Hk. rewrite <- rotSkyPos_fallback. destruct (colmap !! "rotSkyPos"); [reflexivity|].
  now apply lookup_insert_ne.
Qed.

Lemma list_set_NoDup (l : list string) : NoDup (Py.list_set l).
Proof. unfold Py.list_set. apply NoDup_elements. Qed.

Lemma list_set_elem (l : list string) (x : string) : x ∈ Py.list_set l <-> x ∈ l.
Proof. unfold Py.list_set. rewrite elem_of_elements. apply elem_of_list_to_set. Qed.

(** ** [readOpsim]: the column fallbacks *)

Lemma fst_prepend {A} (t : list event) (m : M A) : fst (prepend t m) = fst m.
Proof. reflexivity. Qed.

Lemma snd_prepend {A} (t : list event) (m : M A) : snd (prepend t m) = t ++ snd m.
Proof. reflexivity. Qed.

(** C4. [readOpsim] maps [rotSkyPos] to itself when the discovered column map
    lacks it; an optional column ([rotSkyPos], [seeingEff], [solarElong]) whose
    trial query raises ValueError is left out and the read goes on: how it
    ends depends on the final fetch and on closing the database only; and the
    columns of the final fetch are, without repetition, the required columns
    and the optional columns that survived. *)
Theorem readOpsim_column_fallback (w : World) (opsimfile : string)
    (constraint : option string) (footprint : string) (dbcols : option (list string))
    (colmap0 : gmap string string)
    (c_mjd c_night c_ra c_dec c_filter c_exptime c_seeingGeom c_depth c_seeingEff : string) :
  OpsimDatabase_init w opsimfile = Done tt ->
  getColMap w opsimfile = Done colmap0 ->
  let colmap := with_rotSkyPos colmap0 in
  (colmap !!.) <$> ["mjd"; "night"; "ra"; "dec"; "filter"; "exptime"; "seeingGeom";
                    "fiveSigmaDepth"; "seeingEff"]
  = Some <$> [c_mjd; c_night; c_ra; c_dec; c_filter; c_exptime; c_seeingGeom; c_depth;
              c_seeingEff] ->
  let c_rot := default "rotSkyPos" (colmap0 !! "rotSkyPos") in
  let required :=
    [c_mjd; c_night; c_ra; c_dec; c_filter; c_exptime; c_seeingGeom; c_depth]
    ++ (if String.eqb footprint "camera" then [c_rot] else []) ++ default [] dbcols in
  query_columns w opsimfile (Py.list_set required) constraint 1 = Done tt ->
  let optional := [c_rot; c_seeingEff; "solarElong"] in
  Forall (harmless w opsimfile constraint) optional ->
  let surviving :=
    List.filter (fun col => negb (trial_fails w opsimfile constraint col)) optional in
  let cols := Py.list_set (Py.list_set required ++ surviving) in
  colmap !! "rotSkyPos" = Some c_rot /\
  NoDup cols /\
  (forall col, col ∈ cols <-> col ∈ required \/ col ∈ surviving) /\
  FetchMetricData cols constraint ∈ snd (readOpsim w opsimfile constraint footprint dbcols) /\
  fst (readOpsim w opsimfile constraint footprint dbcols)
  = match fetchMetricData w opsimfile cols constraint with
    | Done simdata =>
        match opsdb_close w opsimfile with
        | Done _ => Returns (simdata, colmap)
        | Fails c msg => Raises (Ext c msg)
        end
    | Fails c msg => Raises (Ext c msg)
    end.
Proof.
  intros Hdb Hmap colmap Hlook c_rot required Hquery optional Hharm surviving cols.
  injection Hlook as Hmjd Hnight Hra Hdec Hfilter Hexp Hgeom Hdepth Heff.
  assert (Hrot : colmap !! "rotSkyPos" = Some c_rot) by apply with_rotSkyPos_lookup.
  split; [exact Hrot|]. split; [apply list_set_NoDup|]. split.
  { intros col. unfold cols. rewrite list_set_elem, elem_of_app, list_set_elem. reflexivity. }
  assert (Hrun : exists t,
    readOpsim w opsimfile constraint footprint dbcols
    = prepend (t ++ [FetchMetricData cols constraint])
        (match fetchMetricData w opsimfile cols constraint with
         | Done simdata =>
             let! _ := call OpsdbClose (opsdb_close w opsimfile) in
             let! _ := emit (LoggingInfo (Fmt "Queried data from opsim %s, fetched %d visits."
                                              [OStr opsimfile; OInt (sd_len simdata)])) in
             ret (simdata, colmap)
         | Fails c msg => (Raises (Ext c msg), [])
         end)).
  { unfold readOpsim. rewrite Hdb, bind_call_Done, Hmap, bind_call_Done.
    cbv zeta. rewrite rotSkyPos_fallback. fold colmap.
    rewrite (bind_subscript _ _ _ _ Hmjd), (bind_subscript _ _ _ _ Hnight),
      (bind_subscript _ _ _ _ Hra), (bind_subscript _ _ _ _ Hdec),
      (bind_subscript _ _ _ _ Hfilter), (bind_subscript _ _ _ _ Hexp),
      (bind_subscript _ _ _ _ Hgeom), (bind_subscript _ _ _ _ Hdepth).
    assert (Hreq : forall base,
      base ++ default [] dbcols = required ->
      match dbcols with Some extra => base ++ extra | None => base end = required).
    { intros base <-. destruct dbcols; simpl; now rewrite ?app_nil_r. }
    assert (Hbase :
      ([c_mjd; c_night; c_ra; c_dec; c_filter; c_exptime; c_seeingGeom; c_depth]
       ++ (if String.eqb footprint "camera" then [c_rot] else [])) ++ default [] dbcols
      = required) by (unfold required; now rewrite <- app_assoc).
    destruct (String.eqb footprint "camera") eqn:Hfp;
      [rewrite (bind_subscript _ _ _ _ Hrot)|]; rewrite bind_ret;
      [|rewrite app_nil_r in Hbase]; rewrite (Hreq _ Hbase);
      rewrite Hquery, bind_call_Done, (bind_subscript _ _ _ _ Hrot),
        (bind_subscript _ _ _ _ Heff);
      fold optional; rewrite (trial_queries_harmless _ _ _ _ _ Hharm), bind_Returns_pair;
      cbn [app]; rewrite remove_failed_all, bind_Returns_pair; fold surviving; fold cols;
      rewrite bind_emit, !prepend_prepend; eexists;
      (destruct (fetchMetricData w opsimfile cols constraint) as [simdata|c msg];
       [rewrite bind_call_Done, prepend_prepend; reflexivity
       |rewrite bind_call_Fails; unfold prepend; simpl; now rewrite ?app_nil_r]). }
  destruct Hrun as [t ->]. rewrite fst_prepend, snd_prepend. split.
  - apply elem_of_app. left. apply elem_of_app. right. apply list_elem_of_singleton.
    reflexivity.
  - destruct (fetchMetricData w opsimfile cols constraint) as [simdata|c msg]; [|reflexivity].
    destruct (opsdb_close w opsimfile) as [[]|c msg]; reflexivity.
Qed.

Lemma readOpsim_column_fallback_witness :
  OpsimDatabase_init bare_world "kraken_2026.db" = Done tt /\
  getColMap bare_world "kraken_2026.db" = Done bare_colmap /\
  bare_colmap !! "rotSkyPos" = None /\
  query_columns bare_world "kraken_2026.db"
    (Py.list_set ["observationStartMJD"; "night"; "fieldRA"; "fieldDec"; "filter";
                  "visitExposureTime"; "seeingFwhmGeom"; "fiveSigmaDepth"; "rotSkyPos"])
    (Some "night < 365") 1 = Done tt /\
  Forall (harmless bare_world "kraken_2026.db" (Some "night < 365"))
    ["rotSkyPos"; "seeingFwhmEff"; "solarElong"] /\
  trial_fails bare_world "kraken_2026.db" (Some "night < 365") "solarElong" = true /\
  with_rotSkyPos bare_colmap !! "rotSkyPos" = Some "rotSkyPos" /\
  fst (readOpsim bare_world "kraken_2026.db" (Some "night < 365") "camera" None)
  = Returns (sample_simdata, with_rotSkyPos bare_colmap).
Proof.
  assert (H1 : OpsimDatabase_init bare_world "kraken_2026.db" = Done tt) by reflexivity.
  assert (H2 : getColMap bare_world "kraken_2026.db" = Done bare_colmap) by reflexivity.
  assert (H3 : (with_rotSkyPos bare_colmap !!.)
                 <$> ["mjd"; "night"; "ra"; "dec"; "filter"; "exptime"; "seeingGeom";
                      "fiveSigmaDepth"; "seeingEff"]
               = Some <$> ["observationStartMJD"; "night"; "fieldRA"; "fieldDec"; "filter";
                           "visitExposureTime"; "seeingFwhmGeom"; "fiveSigmaDepth";
                           "seeingFwhmEff"])
    by (vm_compute; reflexivity).
  assert (H4 : query_columns bare_world "kraken_2026.db"
                 (Py.list_set ["observationStartMJD"; "night"; "fieldRA"; "fieldDec"; "filter";
                               "visitExposureTime"; "seeingFwhmGeom"; "fiveSigmaDepth";
                               "rotSkyPos"])
                 (Some "night < 365") 1 = Done tt)
    by (vm_compute; reflexivity).
  assert (H5 : Forall (harmless bare_world "kraken_2026.db" (Some "night < 365"))
                 ["rotSkyPos"; "seeingFwhmEff"; "solarElong"]).
  { constructor; [left; vm_compute; reflexivity|].
    constructor; [left; vm_compute; reflexivity|].
    constructor; [right; vm_compute; reflexivity|]. constructor. }
  destruct (readOpsim_column_fallback bare_world "kraken_2026.db" (Some "night < 365")
              "camera" None bare_colmap _ _ _ _ _ _ _ _ _ H1 H2 H3 H4 H5)
    as (Hrot & _ & _ & _ & Hend).
  split; [exact H1|]. split; [exact H2|]. split; [vm_compute; reflexivity|].
  split; [exact H4|]. split; [exact H5|]. split; [vm_compute; reflexivity|].
  split; [rewrite Hrot; vm_compute; reflexivity|].
  rewrite Hend. vm_compute. reflexivity.
Defined.

(** ** Which step each function belongs to, and which exceptions are its own *)

Section Steps.

Context (w : World).

Lemma calcColors_loop_in_step obs sednames :
  calls_all (in_step Generate) (calcColors_loop w obs sednames).
Proof.
  eapply Forall_impl; [apply calcColors_loop_calls|].
  intros ev [s ->]. now left.
Qed.

Lemma _setupColors_calls obs filterlist orbits :
  calls_all (in_step Generate) (_setupColors w obs filterlist orbits).
Proof.
  unfold _setupColors. along; solve [now left | apply calcColors_loop_in_step].
Qed.

Lemma runObs_construct_calls args colmap :
  calls_all (in_step Generate) (runObs_construct w args colmap).
Proof. unfold runObs_construct, common_kwargs. along; solve [now left | now right]. Qed.

Lemma runObs_calls orbits simdata args colmap :
  calls_all (in_step Generate) (runObs w orbits simdata args colmap).
Proof.
  unfold runObs.
  along;
    solve [now left | apply runObs_construct_calls | apply calcColors_loop_in_step].
Qed.

Lemma trial_queries_no_own opsimfile constraint more_cols failed_cols :
  no_own (trial_queries w opsimfile constraint more_cols failed_cols).
Proof.
  revert failed_cols. induction more_cols as [|col rest IH]; intros failed_cols; simpl.
  - along.
  - along.
Qed.

Lemma remove_failed_no_own failed_cols more_cols :
  no_own (remove_failed failed_cols more_cols).
Proof.
  revert more_cols. induction failed_cols as [|col rest IH]; intros more_cols; simpl.
  - along.
  - destruct (py_remove col more_cols); [apply IH | along].
Qed.

Lemma readOpsim_no_own opsimfile constraint footprint dbcols :
  no_own (readOpsim w opsimfile constraint footprint dbcols).
Proof.
  unfold readOpsim.
  along; solve [apply trial_queries_no_own | apply remove_failed_no_own].
Qed.

Lemma readOrbits_no_own orbitfile : no_own (readOrbits w orbitfile).
Proof. unfold readOrbits. along. Qed.

Lemma calcColors_loop_no_own obs sednames : no_own (calcColors_loop w obs sednames).
Proof. induction sednames as [|s rest IH]; simpl; along. Qed.

Lemma _setupColors_no_own obs filterlist orbits :
  no_own (_setupColors w obs filterlist orbits).
Proof. unfold _setupColors. along. apply calcColors_loop_no_own. Qed.

Lemma common_kwargs_no_own args colmap : no_own (common_kwargs args colmap).
Proof. unfold common_kwargs. along. Qed.

(** The part of [runObs] after the object is constructed raises nothing of
    the script's own. *)
Lemma runObs_Own orbits simdata args colmap c msg :
  fst (runObs w orbits simdata args colmap) = Raises (Own c msg) ->
  fst (runObs_construct w args colmap) = Raises (Own c msg).
Proof.
  unfold runObs. rewrite fst_bind.
  destruct (fst (runObs_construct w args colmap)) as [obs|e]; [|now intros [= ->]].
  intros H. exfalso. revert c msg H.
  change (no_own
    (let! column := match sd_filter simdata with
                    | Some col => ret col
                    | None => raise (Ext ValueError "no field of name filter")
                    end in
     let filterlist := Py.np_unique column in
     let! obs0 := _setupColors w obs filterlist orbits in
     call (Run obs0 orbits simdata) (run w obs0 orbits simdata))).
  along. apply calcColors_loop_no_own.
Qed.

Lemma readOrbits_first orbitfile :
  exists rest, snd (readOrbits w orbitfile) = OsPathIsfile orbitfile :: rest.
Proof. unfold readOrbits. rewrite bind_emit, snd_prepend. now eexists. Qed.

Lemma readOpsim_first opsimfile constraint footprint dbcols :
  exists rest,
    snd (readOpsim w opsimfile constraint footprint dbcols)
    = NewOpsimDatabase opsimfile :: rest.
Proof. unfold readOpsim. rewrite snd_bind. simpl. now eexists. Qed.

End Steps.

(** ** Counting steps *)

Lemma choose_app {B} (f : event -> option B) (t1 t2 : list event) :
  choose f (t1 ++ t2) = choose f t1 ++ choose f t2.
Proof.
  induction t1 as [|ev t1 IH]; simpl; [reflexivity|].
  destruct (f ev); simpl; now rewrite IH.
Qed.

Lemma choose_elem {B} (f : event -> option B) (t : list event) (ev : event) (b : B) :
  ev ∈ t -> f ev = Some b -> b ∈ choose f t.
Proof.
  induction 1 as [ev t|ev ev' t Hin IH]; simpl; intros Hf.
  - rewrite Hf. left.
  - destruct (f ev'); [right|]; now apply IH.
Qed.

Lemma choose_none {B} (f : event -> option B) (t : list event) :
  Forall (fun ev => f ev = None) t -> choose f t = [].
Proof. induction 1 as [|ev t Hev _ IH]; simpl; [reflexivity | now rewrite Hev]. Qed.

Lemma choose_in_step (s : step) (t : list event) :
  Forall (in_step s) t -> exists n, choose step_of t = replicate n s.
Proof.
  induction 1 as [|ev t [Hev|Hev] _ [n IH]].
  - now exists 0%nat.
  - exists (S n). simpl. now rewrite Hev, IH.
  - exists n. simpl. now rewrite Hev.
Qed.

Lemma choose_in_step_some (s : step) (t : list event) (ev : event) :
  Forall (in_step s) t -> ev ∈ t -> step_of ev = Some s ->
  exists n, choose step_of t = replicate (S n) s.
Proof.
  intros Hall Hin Hev. destruct (choose_in_step s t Hall) as [[|n] Hn]; [|now exists n].
  exfalso. pose proof (choose_elem step_of t ev s Hin Hev) as Hs.
  rewrite Hn in Hs. inversion Hs.
Qed.

Lemma squash_replicate (a : step) (n : nat) (l : list step) :
  squash (replicate (S n) a ++ l) = squash (a :: l).
Proof.
  induction n as [|n IH]; [reflexivity|].
  change (replicate (S (S n)) a ++ l) with (a :: (replicate (S n) a ++ l)).
  cbn [squash]. cbn [replicate app]. rewrite decide_True by reflexivity.
  exact IH.
Qed.

(** ** The whole run *)

Lemma setupArgs_snd (args : Namespace) : snd (setupArgs args) = [].
Proof.
  unfold setupArgs. destruct (opsimDb args); [|reflexivity].
  destruct (orbitFile args); [|reflexivity].
  now destruct (negb (in_tuple (obsType args) ["linear"; "direct"])).
Qed.

Lemma main_Returns (w : World) (parsed : Namespace) (u : unit) (t : list event) :
  main w parsed = (Returns u, t) ->
  exists args orb db orbits simdata colmap m1 m2 t1 t2 t3,
    setupArgs parsed = (Returns args, []) /\
    orbitFile args = Some orb /\ opsimDb args = Some db /\
    readOrbits w orb = (Returns orbits, t1) /\
    readOpsim w db (Some (sqlConstraint args)) (footprint args) None
      = (Returns (simdata, colmap), t2) /\
    runObs w orbits simdata args colmap = (Returns tt, t3) /\
    t = [LoggingBasicConfig (logFile args); LoggingInfo m1; LoggingInfo m2]
        ++ t1 ++ t2 ++ t3 ++ [LoggingInfo (Fmt "Completed successfully." [])].
Proof.
  unfold main. intros H.
  inv_bind H Hargs. rename a into args.
  assert (t1 = []) as -> by (pose proof (setupArgs_snd parsed) as E; now rewrite Hargs in E).
  inv_bind H H1. apply emit_Returns in H1 as ->.
  inv_bind H H2. apply emit_Returns in H2 as ->.
  inv_bind H H3. apply emit_Returns in H3 as ->.
  inv_bind H Horb. destruct (orbitFile args) as [orb|] eqn:Eorb; [|discriminate].
  apply ret_Returns in Horb as [<- ->].
  inv_bind H Hro. rename a2 into orbits.
  inv_bind H Hdb. destruct (opsimDb args) as [db|] eqn:Edb; [|discriminate].
  apply ret_Returns in Hdb as [<- ->].
  inv_bind H Hop. destruct a2 as [simdata colmap].
  inv_bind H Hrun. destruct a2. apply emit_Returns in H as ->.
  eexists args, orb, db, orbits, simdata, colmap, _, _, _, _, _.
  repeat split; eassumption.
Qed.

Lemma in_step_not_constructed (s : step) (ev : event) :
  s <> Generate -> in_step s ev ->
  match ev with NewObs o => Some o | _ => None end = None.
Proof. intros Hs [H|H]; destruct ev; simpl in *; congruence. Qed.

Lemma in_step_not_ran (s : step) (ev : event) :
  s <> Generate -> in_step s ev ->
  match ev with Run o _ _ => Some o | _ => None end = None.
Proof. intros Hs [H|H]; destruct ev; simpl in *; congruence. Qed.

Lemma constructed_outside (s : step) (t : list event) :
  s <> Generate -> Forall (in_step s) t -> constructed t = [].
Proof.
  intros Hs Hall. apply choose_none. eapply Forall_impl; [exact Hall|].
  intros ev. now apply in_step_not_constructed.
Qed.

Lemma ran_outside (s : step) (t : list event) :
  s <> Generate -> Forall (in_step s) t -> ran t = [].
Proof.
  intros Hs Hall. apply choose_none. eapply Forall_impl; [exact Hall|].
  intros ev. now apply in_step_not_ran.
Qed.

Lemma squash_cons_other (a b : step) (n : nat) (l : list step) :
  a <> b ->
  squash (a :: replicate (S n) b ++ l) = a :: squash (replicate (S n) b ++ l).
Proof.
  intros Hab. change (replicate (S n) b ++ l) with (b :: (replicate n b ++ l)).
  cbn [squash]. now rewrite decide_False.
Qed.

Lemma squash_three (n1 n2 n3 : nat) :
  squash (replicate (S n1) ReadOrbits ++ replicate (S n2) ReadPointing
          ++ replicate (S n3) Generate ++ [])
  = [ReadOrbits; ReadPointing; Generate].
Proof.
  rewrite squash_replicate, squash_cons_other by discriminate.
  rewrite squash_replicate, squash_cons_other by discriminate.
  now rewrite squash_replicate.
Qed.

(** C3, as the code has it. On every run of the driver that ends well, the
    three steps are gone through once each, in this order: the orbits are read
    first, then the pointing (opsim) data, then the observations are
    generated. *)
Theorem main_steps_in_order (w : World) (parsed : Namespace) (u : unit) (t : list event) :
  main w parsed = (Returns u, t) ->
  steps t = [ReadOrbits; ReadPointing; Generate].
Proof.
  intros H.
  apply main_Returns in H
    as (args & orb & db & orbits & simdata & colmap & m1 & m2 & t1 & t2 & t3
        & _ & _ & _ & Hro & Hop & Hrun & ->).
  destruct (readOrbits_first w orb) as [r1 E1].
  destruct (readOpsim_first w db (Some (sqlConstraint args)) (footprint args) None) as [r2 E2].
  pose proof (readOrbits_calls w orb) as K1.
  pose proof (readOpsim_calls w db (Some (sqlConstraint args)) (footprint args) None) as K2.
  pose proof (runObs_calls w orbits simdata args colmap) as K3.
  pose proof (runObs_Returns _ _ _ _ _ _ _ Hrun)
    as (obs & banner & filters & seds & _ & _ & _ & _ & E3).
  unfold calls_all in K1, K2, K3. rewrite Hro in K1, E1. rewrite Hop in K2, E2.
  rewrite Hrun in K3. simpl in K1, K2, K3, E1, E2.
  destruct (choose_in_step_some ReadOrbits t1 (OsPathIsfile orb) K1) as [n1 N1];
    [rewrite E1; left | reflexivity |].
  destruct (choose_in_step_some ReadPointing t2 (NewOpsimDatabase db) K2) as [n2 N2];
    [rewrite E2; left | reflexivity |].
  destruct (choose_in_step_some Generate t3 (NewObs obs) K3) as [n3 N3];
    [rewrite E3; right; left | reflexivity |].
  unfold steps. rewrite !choose_app, N1, N2, N3. cbn [choose step_of app].
  apply squash_three.
Qed.

Lemma main_steps_in_order_witness :
  main sample_world sample_args = (Returns tt, snd (main sample_world sample_args)) /\
  steps (snd (main sample_world sample_args)) = [ReadOrbits; ReadPointing; Generate].
Proof.
  split; [vm_compute; reflexivity|].
  apply (main_steps_in_order sample_world sample_args tt). vm_compute. reflexivity.
Defined.

(** The order C3 words (pointing data before orbits) is not the order of the
    code: on the sample run the orbit file is read before the database is
    opened. *)
Lemma pointing_first_refuted :
  ~ (forall (w : World) (parsed : Namespace) (u : unit) (t : list event),
        main w parsed = (Returns u, t) ->
        steps t = [ReadPointing; ReadOrbits; Generate]).
Proof.
  intros H.
  assert (E : main sample_world sample_args = (Returns tt, snd (main sample_world sample_args)))
    by (vm_compute; reflexivity).
  apply H in E. vm_compute in E. discriminate E.
Qed.

(** ** [runObs]: construction, configuration, run *)

Lemma runObs_constructed (w : World) orbits simdata args colmap :
  constructed (snd (runObs w orbits simdata args colmap))
  = constructed (snd (runObs_construct w args colmap)).
Proof.
  pose proof (runObs_calls w orbits simdata args colmap) as Hall.
  unfold runObs in *. unfold calls_all in Hall. rewrite snd_bind in *.
  unfold constructed. rewrite choose_app.
  destruct (fst (runObs_construct w args colmap)) as [obs|e];
    [|simpl; now rewrite app_nil_r].
  apply Forall_app in Hall as [_ Hall].
  match goal with |- _ ++ ?x = _ => assert (x = []) as -> end; [|now rewrite app_nil_r].
  pose proof (_setupColors_calls w obs) as Hs.
  apply choose_none.
  match goal with |- Forall ?P (snd ?m) => change (calls_all P m) end.
  along; try reflexivity.
  eapply Forall_impl; [apply calcColors_loop_calls|]. now intros ev [s ->].
Qed.

Lemma common_kwargs_total (args : Namespace) (colmap : gmap string string) :
  (forall key,
      key ∈ ["mjd"; "seeingGeom"; "exptime"; "ra"; "dec"; "rotSkyPos"; "raDecDeg"] ->
      is_Some (colmap !! key)) ->
  exists kw, common_kwargs args colmap = (Returns kw, []).
Proof.
  intros Hkeys.
  assert (H1 : is_Some (colmap !! "mjd")) by (apply Hkeys; set_solver).
  assert (H2 : is_Some (colmap !! "seeingGeom")) by (apply Hkeys; set_solver).
  assert (H3 : is_Some (colmap !! "exptime")) by (apply Hkeys; set_solver).
  assert (H4 : is_Some (colmap !! "ra")) by (apply Hkeys; set_solver).
  assert (H5 : is_Some (colmap !! "dec")) by (apply Hkeys; set_solver).
  assert (H6 : is_Some (colmap !! "rotSkyPos")) by (apply Hkeys; set_solver).
  assert (H7 : is_Some (colmap !! "raDecDeg")) by (apply Hkeys; set_solver).
  destruct H1 as [v1 H1], H2 as [v2 H2], H3 as [v3 H3], H4 as [v4 H4], H5 as [v5 H5],
    H6 as [v6 H6], H7 as [v7 H7].
  unfold common_kwargs.
  rewrite (bind_subscript _ _ _ _ H1), (bind_subscript _ _ _ _ H2),
    (bind_subscript _ _ _ _ H3), (bind_subscript _ _ _ _ H4),
    (bind_subscript _ _ _ _ H5), (bind_subscript _ _ _ _ H6),
    (bind_subscript _ _ _ _ H7).
  now eexists.
Qed.

(** Lower-casing one character gives a letter of ['linear'] or ['direct']
    exactly for that letter, small or capital. *)
Lemma lower_ascii_same_letter (a b : ascii) :
  a ∈ method_letters -> Py.lower_ascii b = a <-> same_letter a b = true.
Proof.
  unfold method_letters. intros Ha.
  repeat (apply elem_of_cons in Ha as [->|Ha];
          [destruct b as [[] [] [] [] [] [] [] []]; vm_compute; split; intros H;
           first [reflexivity | discriminate H]|]).
  inversion Ha.
Qed.

(** [s.lower()] is a word of such letters exactly when [s] spells the word in
    some mix of small and capital letters. *)
Lemma lower_same_letters (word s : string) :
  Forall (fun a => a ∈ method_letters) (list_ascii_of_string word) ->
  Py.lower s = word <-> same_letters word s = true.
Proof.
  revert s. induction word as [|a word IH]; intros s Hword.
  - destruct s; simpl; split; (reflexivity || discriminate).
  - cbn [list_ascii_of_string] in Hword. apply Forall_cons in Hword as [Ha Hword].
    destruct s as [|b s]; [simpl; split; discriminate|].
    cbn [Py.lower same_letters]. rewrite andb_true_iff.
    rewrite <- (lower_ascii_same_letter a b Ha), <- (IH s Hword).
    split; [intros [= -> ->]; now split | intros [-> ->]; reflexivity].
Qed.

Lemma lower_linear (s : string) :
  Py.lower s = "linear" <-> same_letters "linear" s = true.
Proof.
  apply lower_same_letters. unfold method_letters.
  repeat (constructor; [repeat first [left | right]|]). constructor.
Qed.

Lemma lower_direct (s : string) :
  Py.lower s = "direct" <-> same_letters "direct" s = true.
Proof.
  apply lower_same_letters. unfold method_letters.
  repeat (constructor; [repeat first [left | right]|]). constructor.
Qed.

Lemma common_kwargs_missing (args : Namespace) (colmap : gmap string string) (key : string) :
  key ∈ ["mjd"; "seeingGeom"; "exptime"; "ra"; "dec"; "rotSkyPos"; "raDecDeg"] ->
  colmap !! key = None ->
  exists missing,
    colmap !! missing = None /\
    common_kwargs args colmap = (Raises (Ext KeyError missing), []).
Proof.
  intros Hkey Hnone. unfold common_kwargs.
  repeat match goal with
  | |- context [subscript colmap ?k] =>
      let E := fresh "E" in
      destruct (colmap !! k) as [?v|] eqn:E;
      [rewrite (bind_subscript _ _ _ _ E)
      |exists k; split; [exact E|]; unfold subscript; rewrite E; reflexivity]
  end.
  exfalso. repeat (apply elem_of_cons in Hkey as [->|Hkey]; [congruence|]).
  inversion Hkey.
Qed.

(** The objects [runObs] constructs, for every column map. *)
Lemma runObs_construct_constructed (w : World) args colmap :
  constructed (snd (runObs_construct w args colmap))
  = if String.eqb (Py.lower (obsType args)) "linear" then
      match fst (common_kwargs args colmap) with
      | Returns kw => [LinearObs kw]
      | Raises _ => []
      end
    else if String.eqb (Py.lower (obsType args)) "direct" then
      match fst (common_kwargs args colmap) with
      | Returns kw => [DirectObs kw (prelimEphMode args) (roughTol args)]
      | Raises _ => []
      end
    else [].
Proof.
  unfold runObs_construct.
  destruct (String.eqb (Py.lower (obsType args)) "linear");
    [|destruct (String.eqb (Py.lower (obsType args)) "direct"); [|reflexivity]];
    rewrite bind_emit, snd_prepend, snd_bind, common_kwargs_snd;
    (destruct (fst (common_kwargs args colmap)) as [kw|e]; [|reflexivity]);
    rewrite snd_bind;
    match goal with |- context [Obs_init w ?o] => destruct (Obs_init w o) end;
    reflexivity.
Qed.

(** C1, as the code has it. Whatever the column map, [runObs] constructs at
    most one object, and for an [args.obsType] that lower-cases to neither
    ['linear'] nor ['direct'] it raises its ValueError before any call. With
    a column map that holds the seven entries [runObs] reads, it constructs
    exactly one object: a LinearObs when [args.obsType] lower-cased is
    ['linear'], a DirectObs when it is ['direct']. With an entry missing, a
    matching [obsType] leads to a KeyError and no object. Lower-casing is
    comparison up to the case of the letters. *)
Theorem runObs_dispatch (w : World) (orbits : Orbits) (simdata : SimData)
    (args : Namespace) (colmap : gmap string string) :
  (Py.lower (obsType args) = "linear" <-> same_letters "linear" (obsType args) = true) /\
  (Py.lower (obsType args) = "direct" <-> same_letters "direct" (obsType args) = true) /\
  (length (constructed (snd (runObs w orbits simdata args colmap))) <= 1)%nat /\
  (Py.lower (obsType args) <> "linear" -> Py.lower (obsType args) <> "direct" ->
   runObs w orbits simdata args colmap
   = (Raises (Own ValueError "Must use 'Linear' or 'Direct' for the obsType."), [])) /\
  ((forall key,
       key ∈ ["mjd"; "seeingGeom"; "exptime"; "ra"; "dec"; "rotSkyPos"; "raDecDeg"] ->
       is_Some (colmap !! key)) ->
   exists kw,
     common_kwargs args colmap = (Returns kw, []) /\
     (Py.lower (obsType args) = "linear" ->
      constructed (snd (runObs w orbits simdata args colmap)) = [LinearObs kw]) /\
     (Py.lower (obsType args) = "direct" ->
      constructed (snd (runObs w orbits simdata args colmap))
      = [DirectObs kw (prelimEphMode args) (roughTol args)])) /\
  (forall key,
      key ∈ ["mjd"; "seeingGeom"; "exptime"; "ra"; "dec"; "rotSkyPos"; "raDecDeg"] ->
      colmap !! key = None ->
      Py.lower (obsType args) = "linear" \/ Py.lower (obsType args) = "direct" ->
      constructed (snd (runObs w orbits simdata args colmap)) = [] /\
      exists missing,
        colmap !! missing = None /\
        fst (runObs w orbits simdata args colmap) = Raises (Ext KeyError missing)).
Proof.
  split; [apply lower_linear|]. split; [apply lower_direct|].
  rewrite runObs_constructed, runObs_construct_constructed.
  split; [|split; [|split]].
  - destruct (String.eqb (Py.lower (obsType args)) "linear");
      [|destruct (String.eqb (Py.lower (obsType args)) "direct")];
      try destruct (fst (common_kwargs args colmap)); simpl; lia.
  - intros Hlin Hdir. unfold runObs, runObs_construct.
    apply String.eqb_neq in Hlin, Hdir. now rewrite Hlin, Hdir.
  - intros Hkeys. destruct (common_kwargs_total args colmap Hkeys) as [kw Hkw].
    exists kw. split; [exact Hkw|]. rewrite Hkw. split.
    + intros ->. reflexivity.
    + intros ->. reflexivity.
  - intros key Hkey Hnone Hty.
    destruct (common_kwargs_missing args colmap key Hkey Hnone) as (missing & Hmiss & Hkw).
    rewrite Hkw. split.
    + destruct Hty as [-> | ->]; reflexivity.
    + exists missing. split; [exact Hmiss|]. unfold runObs, runObs_construct.
      destruct Hty as [-> | ->].
      * rewrite String.eqb_refl, bind_emit, Hkw. reflexivity.
      * replace (String.eqb "direct" "linear") with false by reflexivity.
        rewrite String.eqb_refl, bind_emit, Hkw. reflexivity.
Qed.

Lemma sample_colmap_complete (key : string) :
  key ∈ ["mjd"; "seeingGeom"; "exptime"; "ra"; "dec"; "rotSkyPos"; "raDecDeg"] ->
  is_Some (sample_colmap !! key).
Proof.
  intros Hkey.
  repeat (apply elem_of_cons in Hkey as [->|Hkey]; [vm_compute; eauto|]).
  inversion Hkey.
Defined.

Lemma runObs_dispatch_witness :
  (exists kw,
      kw_footprint kw = "circle" /\
      constructed (snd (runObs sample_world sample_orbits sample_simdata capital_args
                          sample_colmap)) = [LinearObs kw]) /\
  (exists kw,
      kw_footprint kw = "circle" /\
      constructed (snd (runObs sample_world sample_orbits sample_simdata shouting_args
                          sample_colmap)) = [DirectObs kw "2body" (Float 20 0)]) /\
  runObs sample_world sample_orbits sample_simdata cubic_args sample_colmap
  = (Raises (Own ValueError "Must use 'Linear' or 'Direct' for the obsType."), []) /\
  same_letters "linear" (obsType capital_args) = true /\
  constructed (snd (runObs sample_world sample_orbits sample_simdata capital_args ∅)) = [] /\
  exists missing,
    fst (runObs sample_world sample_orbits sample_simdata capital_args ∅)
    = Raises (Ext KeyError missing).
Proof.
  split; [|split; [|split; [|split; [|split]]]].
  - destruct (runObs_dispatch sample_world sample_orbits sample_simdata capital_args
                sample_colmap) as (_ & _ & _ & _ & Hfull & _).
    destruct (Hfull sample_colmap_complete) as (kw & Hkw & Hlin & _).
    exists kw. split; [|apply Hlin; reflexivity].
    now apply common_kwargs_Returns in Hkw as (_ & -> & _).
  - destruct (runObs_dispatch sample_world sample_orbits sample_simdata shouting_args
                sample_colmap) as (_ & _ & _ & _ & Hfull & _).
    destruct (Hfull sample_colmap_complete) as (kw & Hkw & _ & Hdir).
    exists kw. split; [|apply Hdir; reflexivity].
    now apply common_kwargs_Returns in Hkw as (_ & -> & _).
  - destruct (runObs_dispatch sample_world sample_orbits sample_simdata cubic_args
                sample_colmap) as (_ & _ & _ & Hother & _).
    apply Hother; discriminate.
  - destruct (runObs_dispatch sample_world sample_orbits sample_simdata capital_args
                sample_colmap) as (Hlin & _).
    apply Hlin. reflexivity.
  - destruct (runObs_dispatch sample_world sample_orbits sample_simdata capital_args ∅)
      as (_ & _ & _ & _ & _ & Hmiss).
    apply (Hmiss "mjd"); [left | reflexivity | left; reflexivity].
  - destruct (runObs_dispatch sample_world sample_orbits sample_simdata capital_args ∅)
      as (_ & _ & _ & _ & _ & Hmiss).
    destruct (Hmiss "mjd") as (_ & missing & _ & Hraise);
      [left | reflexivity | left; reflexivity |].
    now exists missing.
Defined.

(** The dispatch C1 words does not hold for every column map: with an empty
    one, ['Linear'] leads to a KeyError and no LinearObs is constructed. *)
Lemma runObs_dispatch_needs_columns :
  ~ (forall (w : World) (orbits : Orbits) (simdata : SimData) (args : Namespace)
            (colmap : gmap string string),
        (Py.lower (obsType args) = "linear" ->
         exists kw, constructed (snd (runObs w orbits simdata args colmap)) = [LinearObs kw]) /\
        (Py.lower (obsType args) = "direct" ->
         exists kw p r,
           constructed (snd (runObs w orbits simdata args colmap)) = [DirectObs kw p r]) /\
        (Py.lower (obsType args) <> "linear" -> Py.lower (obsType args) <> "direct" ->
         exists msg,
           fst (runObs w orbits simdata args colmap) = Raises (Own ValueError msg))).
Proof.
  intros H.
  destruct (H sample_world sample_orbits sample_simdata capital_args ∅) as (Hlin & _).
  destruct (Hlin eq_refl) as [kw Hkw]. vm_compute in Hkw. discriminate Hkw.
Qed.

Lemma choose_outside_generate {B} (f : event -> option B) (t : list event) :
  (forall ev b, f ev = Some b -> step_of ev = Some Generate) ->
  Forall (fun ev => step_of ev <> Some Generate) t ->
  choose f t = [].
Proof.
  intros Hf Hall. apply choose_none. eapply Forall_impl; [exact Hall|].
  intros ev Hev. destruct (f ev) as [b|] eqn:E; [|reflexivity].
  now apply Hf in E.
Qed.

Lemma in_step_not_generate (s : step) (t : list event) :
  s <> Generate -> Forall (in_step s) t ->
  Forall (fun ev => step_of ev <> Some Generate) t.
Proof.
  intros Hs Hall. eapply Forall_impl; [exact Hall|]. intros ev [H|H]; congruence.
Qed.

(** C6. On every run of the driver that ends well, the [run] method is called
    exactly once, as the last call before the closing log message, on the one
    object that was constructed. That object was constructed by the
    constructor [obsType] selects, with the keyword arguments [runObs] builds
    from the arguments and the column map; before [run], its filters were
    read, once, with the distinct values of [simdata['filter']], and its
    colours were computed, once for each distinct [sed_filename] of the
    orbits; [orbits] and [simdata] are what the two reads returned. Nothing
    else of the generation step happens before or after. *)
Theorem main_runs_once (w : World) (parsed : Namespace) (u : unit) (t : list event) :
  main w parsed = (Returns u, t) ->
  exists args orb db orbits simdata colmap kw obs filters seds before,
    setupArgs parsed = (Returns args, []) /\
    orbitFile args = Some orb /\ opsimDb args = Some db /\
    fst (readOrbits w orb) = Returns orbits /\
    fst (readOpsim w db (Some (sqlConstraint args)) (footprint args) None)
    = Returns (simdata, colmap) /\
    common_kwargs args colmap = (Returns kw, []) /\
    ((Py.lower (obsType args) = "linear" /\ obs = LinearObs kw) \/
     (Py.lower (obsType args) = "direct" /\
      obs = DirectObs kw (prelimEphMode args) (roughTol args))) /\
    sd_filter simdata = Some filters /\ sed_filename orbits = Some seds /\
    Forall (fun ev => step_of ev <> Some Generate) before /\
    t = before
        ++ [NewObs obs; ReadFilters obs (Py.np_unique filters)]
        ++ map (CalcColors obs) (Py.np_unique seds)
        ++ [Run obs orbits simdata; LoggingInfo (Fmt "Completed successfully." [])] /\
    constructed t = [obs] /\
    ran t = [obs] /\
    filters_read t = [Py.np_unique filters] /\
    colours_computed t = Py.np_unique seds.
Proof.
  intros H.
  apply main_Returns in H
    as (args & orb & db & orbits & simdata & colmap & m1 & m2 & t1 & t2 & t3
        & Hargs & Horb & Hdb & Hro & Hop & Hrun & ->).
  pose proof (readOrbits_calls w orb) as K1.
  pose proof (readOpsim_calls w db (Some (sqlConstraint args)) (footprint args) None) as K2.
  unfold calls_all in K1, K2. rewrite Hro in K1. rewrite Hop in K2. simpl in K1, K2.
  apply runObs_Returns in Hrun as (obs & banner & filters & seds & Hc & Hf & Hs & _ & ->).
  apply runObs_construct_Returns in Hc as (_ & kw & banner' & Hkw & _ & Hobs).
  set (before := [LoggingBasicConfig (logFile args); LoggingInfo m1; LoggingInfo m2]
                 ++ t1 ++ t2 ++ [Print banner]).
  assert (Hbefore : Forall (fun ev => step_of ev <> Some Generate) before).
  { unfold before. repeat (apply Forall_app; split).
    - repeat constructor; discriminate.
    - now apply (in_step_not_generate ReadOrbits).
    - now apply (in_step_not_generate ReadPointing).
    - repeat constructor; discriminate. }
  assert (Ht : [LoggingBasicConfig (logFile args); LoggingInfo m1; LoggingInfo m2]
               ++ t1 ++ t2
               ++ ([Print banner; NewObs obs; ReadFilters obs (Py.np_unique filters)]
                   ++ map (CalcColors obs) (Py.np_unique seds) ++ [Run obs orbits simdata])
               ++ [LoggingInfo (Fmt "Completed successfully." [])]
               = before
                 ++ [NewObs obs; ReadFilters obs (Py.np_unique filters)]
                 ++ map (CalcColors obs) (Py.np_unique seds)
                 ++ [Run obs orbits simdata; LoggingInfo (Fmt "Completed successfully." [])]).
  { unfold before. rewrite <- ?app_assoc. reflexivity. }
  rewrite Ht.
  assert (Hmap : forall l,
             constructed (map (CalcColors obs) l) = [] /\
             ran (map (CalcColors obs) l) = [] /\
             filters_read (map (CalcColors obs) l) = [] /\
             colours_computed (map (CalcColors obs) l) = l).
  { unfold constructed, ran, filters_read, colours_computed.
    induction l as [|s l (IH1 & IH2 & IH3 & IH4)]; [now repeat split|].
    cbn [map choose]. repeat split; try assumption. now f_equal. }
  destruct (Hmap (Py.np_unique seds)) as (M1 & M2 & M3 & M4).
  assert (Hout : forall B (f : event -> option B),
             (forall ev b, f ev = Some b -> step_of ev = Some Generate) ->
             choose f before = [])
    by (intros B f Hgen; now apply choose_outside_generate).
  exists args, orb, db, orbits, simdata, colmap, kw, obs, filters, seds, before.
  rewrite Hro, Hop.
  repeat (split; [first [assumption | reflexivity]|]).
  unfold constructed, ran, filters_read, colours_computed in *.
  rewrite !choose_app, M1, M2, M3, M4.
  rewrite !Hout by (intros ev b; destruct ev; (discriminate || reflexivity)).
  cbn [choose app]. rewrite app_nil_r. repeat split.
Qed.

Lemma main_runs_once_witness :
  main sample_world sample_args = (Returns tt, snd (main sample_world sample_args)) /\
  exists obs before,
    snd (main sample_world sample_args)
    = before
      ++ [NewObs obs; ReadFilters obs ["g"; "r"]]
      ++ map (CalcColors obs) ["C.dat"; "S.dat"]
      ++ [Run obs sample_orbits sample_simdata;
          LoggingInfo (Fmt "Completed successfully." [])] /\
    kw_footprint (kwargs_of obs) = "camera" /\ is_Linear obs = false /\
    constructed (snd (main sample_world sample_args)) = [obs] /\
    ran (snd (main sample_world sample_args)) = [obs] /\
    filters_read (snd (main sample_world sample_args)) = [["g"; "r"]] /\
    colours_computed (snd (main sample_world sample_args)) = ["C.dat"; "S.dat"].
Proof.
  assert (Hmain : main sample_world sample_args
                  = (Returns tt, snd (main sample_world sample_args)))
    by (vm_compute; reflexivity).
  split; [exact Hmain|].
  destruct (main_runs_once sample_world sample_args tt _ Hmain)
    as (args & orb & db & orbits & simdata & colmap & kw & obs & filters & seds & before
        & Hargs & Horb & Hdb & Hro & Hop & Hkw & Hobs & Hf & Hs & _ & Ht & Hc & Hr & Hfr & Hcc).
  injection Hargs as <-. injection Horb as <-. injection Hdb as <-.
  assert (orbits = sample_orbits) as -> by (vm_compute in Hro; now injection Hro).
  assert (simdata = sample_simdata) as ->
    by (apply (f_equal (fun r => match r with
                                 | Returns (sd, _) => Some sd
                                 | Raises _ => None
                                 end)) in Hop;
        vm_compute in Hop; now injection Hop).
  injection Hf as <-. injection Hs as <-.
  exists obs, before.
  replace (Py.np_unique ["r"; "g"; "r"]) with ["g"; "r"] in * by (vm_compute; reflexivity).
  replace (Py.np_unique ["S.dat"; "C.dat"; "S.dat"]) with ["C.dat"; "S.dat"] in *
    by (vm_compute; reflexivity).
  split; [exact Ht|]. split.
  { apply common_kwargs_Returns in Hkw as (_ & Hfp & _).
    destruct Hobs as [[_ ->]|[_ ->]]; exact Hfp. }
  split.
  { destruct Hobs as [[Hl _]|[_ ->]]; [vm_compute in Hl; discriminate Hl | reflexivity]. }
  repeat split; assumption.
Defined.

(** ** The footprint *)

Lemma calls_all_bind_Returns {A B} (P : event -> Prop) (m : M A) (k : A -> M B) :
  calls_all P m ->
  (forall a t, m = (Returns a, t) -> calls_all P (k a)) ->
  calls_all P (bind m k).
Proof.
  unfold calls_all. intros Hm Hk. rewrite snd_bind. apply Forall_app. split; [assumption|].
  destruct m as [[a|e] t]; simpl; [now apply (Hk a t) | constructor].
Qed.

Lemma footprint_is_outside (fp : string) (s : step) (t : list event) :
  s <> Generate -> Forall (in_step s) t -> Forall (footprint_is fp) t.
Proof.
  intros Hs Hall. eapply Forall_impl; [exact Hall|].
  intros ev [H|H] o ->; simpl in H; congruence.
Qed.

Lemma runObs_footprint (w : World) orbits simdata args colmap :
  calls_all (footprint_is (footprint args)) (runObs w orbits simdata args colmap).
Proof.
  unfold runObs. apply calls_all_bind; [|intros obs].
  - unfold runObs_construct.
    destruct (String.eqb (Py.lower (obsType args)) "linear");
      [|destruct (String.eqb (Py.lower (obsType args)) "direct")].
    + apply calls_all_bind; [apply calls_all_emit; now intros o|intros _].
      apply calls_all_bind_Returns.
      * unfold calls_all. rewrite common_kwargs_snd. constructor.
      * intros kw t Hkw. apply common_kwargs_Returns in Hkw as (_ & Hfp & _).
        along. intros o [= <-]. exact Hfp.
    + apply calls_all_bind; [apply calls_all_emit; now intros o|intros _].
      apply calls_all_bind_Returns.
      * unfold calls_all. rewrite common_kwargs_snd. constructor.
      * intros kw t Hkw. apply common_kwargs_Returns in Hkw as (_ & Hfp & _).
        along. intros o [= <-]. exact Hfp.
    + constructor.
  - along; try solve [now intros o].
    eapply Forall_impl; [apply calcColors_loop_calls|]. now intros ev [s ->] o.
Qed.

(** C7, as the code has it. The footprint an observation constructor receives
    is the [--footprint] string of the command line, unchanged (['circle']
    when the option is not given); the script does not compare it with the
    three names of the help text. *)
Theorem footprint_passed_through (w : World) (parsed : Namespace) (o : Obs) :
  o ∈ constructed (snd (main w parsed)) ->
  kw_footprint (kwargs_of o) = footprint parsed.
Proof.
  assert (Hall : calls_all (footprint_is (footprint parsed)) (main w parsed)).
  { unfold main. apply calls_all_bind_Returns.
    - unfold calls_all. rewrite setupArgs_snd. constructor.
    - intros args t Hargs.
      apply setupArgs_Returns in Hargs as (db & orb & _ & _ & _ & _ & _ & Hfp & _).
      rewrite <- Hfp.
      repeat (apply calls_all_bind; [apply calls_all_emit; now intros o'|intros _]).
      apply calls_all_bind; [destruct (orbitFile args); constructor|intros orbitfile].
      apply calls_all_bind;
        [apply (footprint_is_outside _ ReadOrbits); [discriminate|apply readOrbits_calls]
        |intros orbits].
      apply calls_all_bind; [destruct (opsimDb args); constructor|intros opsimfile].
      apply calls_all_bind;
        [apply (footprint_is_outside _ ReadPointing); [discriminate|apply readOpsim_calls]
        |intros [simdata colmap]].
      apply calls_all_bind; [apply runObs_footprint|intros _].
      apply calls_all_emit. now intros o'. }
  unfold calls_all in Hall. induction Hall as [|ev t Hev _ IH]; simpl.
  - intros Hin. inversion Hin.
  - destruct ev; try exact IH.
    intros Hin. apply elem_of_cons in Hin as [->|Hin]; [now apply Hev | now apply IH].
Qed.

Lemma footprint_passed_through_witness :
  hexagon_obs ∈ constructed (snd (main sample_world hexagon_args)) /\
  kw_footprint (kwargs_of hexagon_obs) = footprint hexagon_args.
Proof.
  assert (Hin : hexagon_obs ∈ constructed (snd (main sample_world hexagon_args)))
    by (vm_compute; left).
  split; [exact Hin|].
  exact (footprint_passed_through sample_world hexagon_args hexagon_obs Hin).
Defined.

(** The footprint is not always one of the three named shapes: the command
    line [--footprint hexagon] reaches the constructor with that name. *)
Lemma footprint_not_restricted :
  ~ (forall (w : World) (parsed : Namespace) (o : Obs),
        o ∈ constructed (snd (main w parsed)) ->
        kw_footprint (kwargs_of o) ∈ ["circle"; "rectangle"; "camera"]).
Proof.
  intros H.
  assert (Hin : hexagon_obs ∈ constructed (snd (main sample_world hexagon_args)))
    by (vm_compute; left).
  apply H in Hin. vm_compute in Hin.
  repeat (apply elem_of_cons in Hin as [Hin|Hin]; [discriminate Hin|]).
  inversion Hin.
Qed.

(** ** [readOrbits] on a missing file *)

(** C9. When the path names no existing file, [readOrbits] logs a critical
    message and goes on: it raises nothing of its own and does not return
    early, it constructs an Orbits object and, once that is constructed, calls
    its [readOrbits] method on the same path; how it ends is how these two
    library calls end. *)
Theorem readOrbits_missing_file (w : World) (orbitfile : string) :
  os_path_isfile w orbitfile = false ->
  no_own (readOrbits w orbitfile) /\
  (exists rest,
      snd (readOrbits w orbitfile)
      = [OsPathIsfile orbitfile;
         LoggingCritical (Fmt "Could not find orbit file %s" [OStr orbitfile]);
         NewOrbits] ++ rest /\
      (Orbits_init w = Done tt -> exists rest', rest = OrbitsReadOrbits orbitfile :: rest')) /\
  fst (readOrbits w orbitfile)
  = match Orbits_init w with
    | Done _ =>
        match Orbits_readOrbits w orbitfile with
        | Done orbits => Returns orbits
        | Fails c msg => Raises (Ext c msg)
        end
    | Fails c msg => Raises (Ext c msg)
    end.
Proof.
  intros Hfile. split; [apply readOrbits_no_own|].
  unfold readOrbits. rewrite Hfile. cbn [negb].
  rewrite !bind_emit, prepend_prepend.
  destruct (Orbits_init w) as [[]|c msg].
  - rewrite bind_call_Done, prepend_prepend.
    destruct (Orbits_readOrbits w orbitfile) as [orbits|c msg].
    + rewrite bind_call_Done, bind_emit. split; [|reflexivity].
      eexists. split; [reflexivity|]. intros _. now eexists.
    + rewrite bind_call_Fails. split; [|reflexivity].
      eexists. split; [reflexivity|]. intros _. now eexists.
  - rewrite bind_call_Fails. split; [|reflexivity].
    eexists. split; [reflexivity|]. discriminate.
Qed.

Lemma readOrbits_missing_file_witness :
  os_path_isfile sample_world "nowhere.des" = false /\
  no_own (readOrbits sample_world "nowhere.des") /\
  (exists rest,
      snd (readOrbits sample_world "nowhere.des")
      = [OsPathIsfile "nowhere.des";
         LoggingCritical (Fmt "Could not find orbit file %s" [OStr "nowhere.des"]);
         NewOrbits] ++ rest /\
      (Orbits_init sample_world = Done tt ->
       exists rest', rest = OrbitsReadOrbits "nowhere.des" :: rest')) /\
  fst (readOrbits sample_world "nowhere.des")
  = match Orbits_init sample_world with
    | Done _ =>
        match Orbits_readOrbits sample_world "nowhere.des" with
        | Done orbits => Returns orbits
        | Fails c msg => Raises (Ext c msg)
        end
    | Fails c msg => Raises (Ext c msg)
    end.
Proof.
  split; [reflexivity|].
  apply (readOrbits_missing_file sample_world "nowhere.des"). reflexivity.
Defined.

(** ** The exceptions of the script's own *)

Lemma runObs_construct_Own (w : World) args colmap c msg :
  fst (runObs_construct w args colmap) = Raises (Own c msg) ->
  c = ValueError /\ msg = "Must use 'Linear' or 'Direct' for the obsType." /\
  Py.lower (obsType args) <> "linear" /\ Py.lower (obsType args) <> "direct".
Proof.
  unfold runObs_construct.
  destruct (String.eqb (Py.lower (obsType args)) "linear") eqn:Hlin;
    [|destruct (String.eqb (Py.lower (obsType args)) "direct") eqn:Hdir].
  - intros H. exfalso.
    match type of H with
    | fst ?m = _ =>
        assert (Hno : no_own m) by (along; apply common_kwargs_no_own);
        exact (Hno _ _ H)
    end.
  - intros H. exfalso.
    match type of H with
    | fst ?m = _ =>
        assert (Hno : no_own m) by (along; apply common_kwargs_no_own);
        exact (Hno _ _ H)
    end.
  - simpl. intros [= <- <-]. apply String.eqb_neq in Hlin, Hdir. now repeat split.
Qed.

(** C2, as the code has it. The script raises a ValueError of its own in four
    places, and nowhere else: [setupArgs] when [--opsimDb] is missing, when
    [--orbitFile] is missing, and when [--obsType] is not exactly ['linear']
    or ['direct']; [runObs] when the lower-cased [obsType] is neither.
    [readOpsim] and [readOrbits] raise nothing of their own. *)
Theorem own_errors (w : World) :
  (forall args c msg,
      fst (setupArgs args) = Raises (Own c msg) <->
      c = ValueError /\
      ((opsimDb args = None /\ msg = "Must specify an opsim database output file.") \/
       (opsimDb args <> None /\ orbitFile args = None /\
        msg = "Must specify an orbit file.") \/
       (opsimDb args <> None /\ orbitFile args <> None /\
        obsType args <> "linear" /\ obsType args <> "direct" /\
        msg = "Must choose linear or direct observation generation method (obsType)."))) /\
  (forall orbits simdata args colmap c msg,
      fst (runObs w orbits simdata args colmap) = Raises (Own c msg) <->
      c = ValueError /\ msg = "Must use 'Linear' or 'Direct' for the obsType." /\
      Py.lower (obsType args) <> "linear" /\ Py.lower (obsType args) <> "direct") /\
  (forall opsimfile constraint footprint dbcols,
      no_own (readOpsim w opsimfile constraint footprint dbcols)) /\
  (forall orbitfile, no_own (readOrbits w orbitfile)).
Proof.
  split; [|split; [|split]].
  - intros args c msg. unfold setupArgs.
    destruct (opsimDb args) as [db|]; [destruct (orbitFile args) as [orb|]|].
    + destruct (in_tuple (obsType args) ["linear"; "direct"]) eqn:Hty; simpl.
      * apply in_tuple_linear_direct in Hty. split; [discriminate|].
        intros (_ & [[[=] _]|[(_ & [=] & _)|(_ & _ & H1 & H2 & _)]]). tauto.
      * assert (Hne : obsType args <> "linear" /\ obsType args <> "direct").
        { split; intros E; rewrite E in Hty; discriminate. }
        split.
        -- intros [= <- <-]. split; [reflexivity|]. right. right. now repeat split.
        -- intros (-> & [[[=] _]|[(_ & [=] & _)|(_ & _ & _ & _ & ->)]]). reflexivity.
    + simpl. split.
      * intros [= <- <-]. split; [reflexivity|]. right. left. now repeat split.
      * intros (-> & [[[=] _]|[(_ & _ & ->)|(_ & H & _)]]); [reflexivity|now destruct H].
    + simpl. split.
      * intros [= <- <-]. split; [reflexivity|]. now left.
      * intros (-> & [[_ ->]|[(H & _)|(H & _)]]); [reflexivity|now destruct H..].
  - intros orbits simdata args colmap c msg. split.
    + intros H. apply runObs_Own in H. now apply runObs_construct_Own in H.
    + intros (-> & -> & Hlin & Hdir). unfold runObs, runObs_construct.
      apply String.eqb_neq in Hlin, Hdir. now rewrite Hlin, Hdir.
  - intros. apply readOpsim_no_own.
  - intros. apply readOrbits_no_own.
Qed.

Lemma own_errors_witness :
  opsimDb capital_args <> None /\ orbitFile capital_args <> None /\
  obsType capital_args <> "linear" /\ obsType capital_args <> "direct" /\
  fst (setupArgs capital_args)
  = Raises (Own ValueError
              "Must choose linear or direct observation generation method (obsType).").
Proof.
  assert (H1 : opsimDb capital_args <> None) by discriminate.
  assert (H2 : orbitFile capital_args <> None) by discriminate.
  assert (H3 : obsType capital_args <> "linear") by discriminate.
  assert (H4 : obsType capital_args <> "direct") by discriminate.
  repeat (split; [assumption|]).
  apply (proj1 (own_errors sample_world)). split; [reflexivity|].
  right. right. now repeat split.
Defined.

(** The script's own ValueError is not only raised for a missing required
    argument: a complete command line with [--obsType Linear] gets one. *)
Lemma own_error_beyond_missing :
  ~ (forall args c msg,
        fst (setupArgs args) = Raises (Own c msg) ->
        opsimDb args = None \/ orbitFile args = None).
Proof.
  intros H.
  destruct (H capital_args ValueError
              "Must choose linear or direct observation generation method (obsType)."
              eq_refl) as [E|E]; discriminate E.
Qed.

(** ** The gate on [obsType] *)

(** C8. [setupArgs] compares [--obsType] as it is spelled: every value other
    than exactly ['linear'] or ['direct'] (so also ['Linear'] and ['Direct'])
    gets a ValueError; [runObs] compares the lower-cased value, and raises
    nothing of its own for ['Linear'] or ['Direct']. Hence, for a namespace
    that passed [setupArgs], the error branch of [runObs] is never taken. *)
Theorem obsType_gate (args : Namespace) :
  (obsType args <> "linear" -> obsType args <> "direct" ->
   exists msg, setupArgs args = (Raises (Own ValueError msg), [])) /\
  (forall w orbits simdata colmap,
      Py.lower (obsType args) = "linear" \/ Py.lower (obsType args) = "direct" ->
      no_own (runObs w orbits simdata args colmap)) /\
  (forall args' t,
      setupArgs args = (Returns args', t) ->
      (obsType args' = "linear" \/ obsType args' = "direct") /\
      forall w orbits simdata colmap, no_own (runObs w orbits simdata args' colmap)).
Proof.
  assert (Hrun : forall a w orbits simdata colmap,
             Py.lower (obsType a) = "linear" \/ Py.lower (obsType a) = "direct" ->
             no_own (runObs w orbits simdata a colmap)).
  { intros a w orbits simdata colmap Hty c msg H.
    apply runObs_Own, runObs_construct_Own in H as (_ & _ & Hlin & Hdir). tauto. }
  split; [|split].
  - intros Hlin Hdir. unfold setupArgs.
    destruct (opsimDb args); [|now eexists]. destruct (orbitFile args); [|now eexists].
    destruct (in_tuple (obsType args) ["linear"; "direct"]) eqn:Hty; [|now eexists].
    apply in_tuple_linear_direct in Hty. tauto.
  - intros w orbits simdata colmap. apply Hrun.
  - intros args' t H.
    apply setupArgs_Returns in H as (db & orb & _ & _ & Hty & _ & Hsame & _).
    apply in_tuple_linear_direct in Hty. rewrite <- Hsame in Hty.
    split; [exact Hty|]. intros w orbits simdata colmap. apply Hrun.
    destruct Hty as [-> | ->]; [now left | now right].
Qed.

Lemma obsType_gate_witness :
  (exists msg, setupArgs capital_args = (Raises (Own ValueError msg), [])) /\
  no_own (runObs sample_world sample_orbits sample_simdata capital_args sample_colmap) /\
  (exists args', setupArgs sample_args = (Returns args', []) /\
                 no_own (runObs sample_world sample_orbits sample_simdata args' sample_colmap)).
Proof.
  split; [|split].
  - apply (proj1 (obsType_gate capital_args)); discriminate.
  - apply (proj1 (proj2 (obsType_gate capital_args))). now left.
  - eexists. split; [reflexivity|].
    apply (proj2 (proj2 (obsType_gate sample_args)) _ [] eq_refl).
Defined.

(** ** The derived fields of [setupArgs] *)

(** C10. [setupArgs] always replaces [args.obsMetadata] by a provenance line:
    ['Opsim '] and the run name, then the sqlconstraint clause if and only if
    the constraint is not empty, then the orbit-file base name, then, if and
    only if [--obsMetadata] was given, the user's text on a new comment line. *)
Theorem setupArgs_obsMetadata (args args' : Namespace) (t : list event) :
  setupArgs args = (Returns args', t) ->
  exists run base,
    opsimRun args' = Some run /\ orbitbase args' = Some base /\
    obsMetadata args'
    = Some ("Opsim " +:+ run
            +:+ (if String.eqb (sqlConstraint args) "" then ""
                 else " selected with sqlconstraint " +:+ sqlConstraint args)
            +:+ " + Orbitfile " +:+ base
            +:+ (match obsMetadata args with
                 | Some user => Py.nl +:+ "# " +:+ user
                 | None => ""
                 end)).
Proof.
  unfold setupArgs. destruct (opsimDb args) as [db|]; [|discriminate].
  destruct (orbitFile args) as [orb|]; [|discriminate].
  destruct (negb (in_tuple (obsType args) ["linear"; "direct"])); [discriminate|].
  intros [= <- <-]. eexists _, _. cbn [opsimRun orbitbase obsMetadata].
  split; [reflexivity|]. split; [reflexivity|]. f_equal.
  destruct (sqlConstraint args) as [|ch rest]; cbn [String.length Nat.ltb Nat.leb String.eqb];
    destruct (obsMetadata args) as [user|];
    rewrite ?append_assoc, ?append_empty_r; reflexivity.
Qed.

Lemma setupArgs_obsMetadata_witness :
  exists args',
    setupArgs sample_args = (Returns args', []) /\
    obsMetadata args'
    = Some ("Opsim kraken_2026 selected with sqlconstraint night < 365 + Orbitfile neos"
            +:+ Py.nl +:+ "# test run").
Proof.
  eexists. split; [reflexivity|].
  destruct (setupArgs_obsMetadata sample_args _ [] eq_refl) as (run & base & Hrun & Hbase & ->).
  injection Hrun as <-. injection Hbase as <-. reflexivity.
Defined.

(** The output path [setupArgs] derives. *)
Lemma setupArgs_obsFile (args args' : Namespace) (t : list event) :
  setupArgs args = (Returns args', t) ->
  exists db orb,
    opsimDb args = Some db /\ orbitFile args = Some orb /\
    obsFile args'
    = Some (match obsFile args with
            | None =>
                Py.os_path_join (outDir args)
                  (Spec.run_name db +:+ "__"
                   +:+ Py.join "." (Py.but_last (Py.split "." (Py.os_path_split_tail orb)))
                   +:+ "_obs.txt")
            | Some given => Py.os_path_join (outDir args) given
            end).
Proof.
  unfold setupArgs. destruct (opsimDb args) as [db|]; [|discriminate].
  destruct (orbitFile args) as [orb|]; [|discriminate].
  destruct (negb (in_tuple (obsType args) ["linear"; "direct"])); [discriminate|].
  intros [= <- <-]. exists db, orb. cbn [obsFile].
  repeat split.
Qed.

(** C5, at an orbit file without extension. The specification takes the
    orbit-file base name to be the file name without its last extension, which
    for [orbits] is [orbits]; the code cuts the name at its last dot and,
    finding none, keeps nothing: the derived path loses the orbit file's
    name. *)
Theorem setupArgs_obsFile_extensionless :
  exists args',
    setupArgs extensionless_args = (Returns args', []) /\
    orbitbase args' = Some "" /\
    obsFile args' = Some "./kraken_2026___obs.txt" /\
    Spec.without_last_extension "orbits" = "orbits" /\
    Spec.derived_obsFile "." "kraken_2026.db" "orbits" None = "./kraken_2026__orbits_obs.txt".
Proof. eexists. repeat split. Qed.

(** ** The orbit-file base name *)

Lemma join_cons_char (sep : string) (c : ascii) (h : string) (l : list string) :
  Py.join sep (String c h :: l) = String c (Py.join sep (h :: l)).
Proof. destruct l; reflexivity. Qed.

(** Cutting at the dots, dropping the last piece and joining again keeps the
    text before the last dot; nothing is kept exactly when there is no dot. *)
Lemma join_but_last_split (s : string) :
  Py.join "." (Py.but_last (Py.split "." s)) = Spec.before_last_dot s /\
  (Py.rfind "." s = None <-> Py.but_last (Py.split "." s) = []).
Proof.
  unfold Spec.before_last_dot, Py.but_last.
  induction s as [|c r [IHj IHn]]; [now split|].
  cbn [Py.split Py.rfind].
  destruct (Py.split "." r) as [|h t] eqn:Hsplit.
  { exfalso. destruct r as [|c' r']; simpl in Hsplit; [discriminate|].
    destruct (Ascii.eqb c' "."); [discriminate|].
    destruct (Py.split "." r'); discriminate. }
  destruct (Ascii.eqb c ".") eqn:Hc.
  - apply Ascii.eqb_eq in Hc as ->.
    change (removelast ("" :: h :: t)) with ("" :: removelast (h :: t)).
    destruct (Py.rfind "." r) as [i|] eqn:Hr.
    + split; [|split; discriminate].
      destruct (removelast (h :: t)) as [|y ys] eqn:Hl.
      * exfalso. destruct IHn as [_ IHn]. now specialize (IHn eq_refl).
      * change (Py.join "." ("" :: y :: ys)) with (String "." (Py.join "." (y :: ys))).
        rewrite IHj. reflexivity.
    + split; [|split; discriminate].
      destruct IHn as [IHn _]. rewrite (IHn eq_refl). reflexivity.
  - destruct t as [|h' t'].
    + cbn [removelast] in *. destruct IHn as [_ IHn]. rewrite (IHn eq_refl). now split.
    + change (removelast (String c h :: h' :: t'))
        with (String c h :: removelast (h' :: t')).
      change (removelast (h :: h' :: t')) with (h :: removelast (h' :: t')) in *.
      rewrite join_cons_char.
      destruct (Py.rfind "." r) as [i|] eqn:Hr.
      * split; [|split; discriminate]. rewrite IHj. reflexivity.
      * exfalso. destruct IHn as [IHn _]. now specialize (IHn eq_refl).
Qed.

(** When the orbit file name has a dot, the derived path is the one the
    specification describes. *)
Lemma setupArgs_obsFile_dotted (args args' : Namespace) (t : list event) (db orb : string) :
  setupArgs args = (Returns args', t) ->
  opsimDb args = Some db -> orbitFile args = Some orb ->
  Py.rfind "." (Py.os_path_split_tail orb) <> None ->
  obsFile args' = Some (Spec.derived_obsFile (outDir args) db orb (obsFile args)).
Proof.
  intros H Hdb Horb Hdot.
  apply setupArgs_obsFile in H as (db' & orb' & Hdb' & Horb' & ->).
  rewrite Hdb in Hdb'. rewrite Horb in Horb'. injection Hdb' as <-. injection Horb' as <-.
  unfold Spec.derived_obsFile. destruct (obsFile args); [reflexivity|].
  rewrite (proj1 (join_but_last_split _)).
  unfold Spec.before_last_dot, Spec.without_last_extension.
  now destruct (Py.rfind "." (Py.os_path_split_tail orb)).
Qed.

(** ** Names: directories, suffixes, extensions *)

Lemma lacks_rfind (c : ascii) (s : string) : lacks c s = true <-> Py.rfind c s = None.
Proof.
  induction s as [|a r IH]; [now split|]. cbn [lacks Py.rfind].
  rewrite andb_true_iff, negb_true_iff, IH.
  destruct (Py.rfind c r); destruct (Ascii.eqb a c); split; try tauto; try discriminate;
    now intros [? ?].
Qed.

Lemma lacks_app (c : ascii) (s t : string) :
  lacks c (s +:+ t) = lacks c s && lacks c t.
Proof.
  induction s as [|a r IH]; [reflexivity|].
  change (String a r +:+ t) with (String a (r +:+ t)). cbn [lacks].
  now rewrite IH, andb_assoc.
Qed.

Lemma length_append (s t : string) :
  String.length (s +:+ t) = (String.length s + String.length t)%nat.
Proof.
  induction s as [|a r IH]; [reflexivity|].
  change (String a r +:+ t) with (String a (r +:+ t)). cbn [String.length plus]. now rewrite IH.
Qed.

Lemma substring_whole (s : string) : substring 0 (String.length s) s = s.
Proof. induction s as [|a r IH]; [reflexivity|]. cbn [String.length substring]. now rewrite IH. Qed.

Lemma substring_prefix (s t : string) : substring 0 (String.length s) (s +:+ t) = s.
Proof.
  induction s as [|a r IH]; [now destruct t|].
  change (String a r +:+ t) with (String a (r +:+ t)). cbn [String.length substring].
  now rewrite IH.
Qed.

Lemma slice_from_whole (s : string) : Py.slice_from 0 s = s.
Proof. unfold Py.slice_from. rewrite Nat.sub_0_r. apply substring_whole. Qed.

Lemma slice_from_after (d : string) (a : ascii) (n : string) :
  Py.slice_from (S (String.length d)) (d +:+ String a n) = n.
Proof.
  induction d as [|b d IH].
  - change (Py.slice_from 1 (String a n)) with (Py.slice_from 0 n). apply slice_from_whole.
  - exact IH.
Qed.

Lemma rfind_last (c : ascii) (d n : string) :
  lacks c n = true -> Py.rfind c (d +:+ String c n) = Some (String.length d).
Proof.
  intros Hn. apply lacks_rfind in Hn. induction d as [|b d IH].
  - change (Py.rfind c (String c n) = Some 0%nat). cbn [Py.rfind].
    now rewrite Hn, Ascii.eqb_refl.
  - change (String b d +:+ String c n) with (String b (d +:+ String c n)).
    cbn [Py.rfind String.length]. now rewrite IH.
Qed.

(** [os.path.split(...)[-1]] drops the directories of a path. *)
Lemma os_path_split_tail_dir (dir name : string) :
  lacks "/" name = true -> Py.os_path_split_tail (dir +:+ String "/" name) = name.
Proof.
  intros Hn. unfold Py.os_path_split_tail. rewrite (rfind_last _ _ _ Hn).
  apply slice_from_after.
Qed.

Lemma os_path_split_tail_plain (name : string) :
  lacks "/" name = true -> Py.os_path_split_tail name = name.
Proof.
  intros Hn. unfold Py.os_path_split_tail. apply lacks_rfind in Hn. rewrite Hn.
  apply slice_from_whole.
Qed.

(** What [os.path.split(...)[-1]] returns has no slash. *)
Lemma os_path_split_tail_lacks (p : string) : lacks "/" (Py.os_path_split_tail p) = true.
Proof.
  unfold Py.os_path_split_tail. induction p as [|a r IH]; [reflexivity|].
  cbn [Py.rfind]. destruct (Py.rfind "/" r) as [i|] eqn:Hr.
  - exact IH.
  - apply lacks_rfind in Hr. destruct (Ascii.eqb a "/") eqn:Ha.
    + change (Py.slice_from 1 (String a r)) with (Py.slice_from 0 r).
      now rewrite slice_from_whole.
    + rewrite slice_from_whole. cbn [lacks]. now rewrite Ha, Hr.
Qed.

(** ** The run name *)

Lemma prefix_app_inv (a b : string) :
  String.prefix a b = true -> exists rest, b = a +:+ rest.
Proof.
  revert b. induction a as [|x a IH]; intros b H.
  - now exists b.
  - destruct b as [|y b]; [discriminate|]. cbn [String.prefix] in H.
    destruct (ascii_dec x y) as [->|]; [|discriminate].
    destruct (IH _ H) as [rest ->]. now exists rest.
Qed.

Lemma lacks_find (c : ascii) (s : string) : lacks c s = true <-> find c s = None.
Proof.
  induction s as [|a r IH]; [now split|]. cbn [lacks find].
  rewrite andb_true_iff, negb_true_iff, IH.
  destruct (Ascii.eqb a c); [split; [now intros [? ?]|discriminate]|].
  destruct (find c r); simpl; split; try tauto; try discriminate. now intros [_ ?].
Qed.

Lemma find_app (c : ascii) (s t : string) :
  find c (s +:+ t)
  = match find c s with
    | Some i => Some i
    | None => (fun j => String.length s + j)%nat <$> find c t
    end.
Proof.
  induction s as [|a r IH].
  { change ("" +:+ t) with t. cbn [find]. destruct (find c t); reflexivity. }
  change (String a r +:+ t) with (String a (r +:+ t)). cbn [find String.length].
  destruct (Ascii.eqb a c); [reflexivity|]. rewrite IH.
  destruct (find c r); [reflexivity|]. now destruct (find c t).
Qed.

(** Where no occurrence of [old] starts inside [s], [replace] copies [s]. *)
Lemma replace_from_skip (old new s t : string) :
  (forall s1 s2, s = s1 +:+ s2 -> s2 <> "" -> String.prefix old (s2 +:+ t) = false) ->
  Py.replace_from old new 0 (s +:+ t) = s +:+ Py.replace_from old new 0 t.
Proof.
  induction s as [|a r IH]; intros Hfree; [reflexivity|].
  change (String a r +:+ t) with (String a (r +:+ t)). cbn [Py.replace_from].
  change (String a (r +:+ t)) with (String a r +:+ t).
  rewrite (Hfree "" (String a r) eq_refl) by discriminate.
  change (String a r +:+ Py.replace_from old new 0 t)
    with (String a (r +:+ Py.replace_from old new 0 t)).
  f_equal. apply IH. intros s1 s2 -> Hs2. now apply (Hfree (String a s1) s2).
Qed.

Lemma replace_db_suffix (stem : string) :
  lacks "." stem = true -> Py.replace ".db" "" (stem +:+ ".db") = stem.
Proof.
  intros Hstem. unfold Py.replace. rewrite replace_from_skip.
  - change (Py.replace_from ".db" "" 0 ".db") with "". apply append_empty_r.
  - intros s1 s2 -> Hs2. rewrite lacks_app in Hstem. apply andb_true_iff in Hstem as [_ H2].
    destruct s2 as [|c s2]; [contradiction|]. cbn [lacks] in H2.
    apply andb_true_iff in H2 as [Hc _]. apply negb_true_iff, Ascii.eqb_neq in Hc.
    change (String c s2 +:+ ".db") with (String c (s2 +:+ ".db")). cbn [String.prefix].
    destruct (ascii_dec "." c) as [E|]; [now subst|reflexivity].
Qed.

Lemma replace_db_plain (stem : string) :
  lacks "." stem = true -> Py.replace ".db" "" stem = stem.
Proof.
  intros Hstem. unfold Py.replace. rewrite <- (append_empty_r stem) at 1.
  rewrite replace_from_skip; [apply append_empty_r|].
  intros s1 s2 -> Hs2. rewrite lacks_app in Hstem. apply andb_true_iff in Hstem as [_ H2].
  destruct s2 as [|c s2]; [contradiction|]. cbn [lacks] in H2.
  apply andb_true_iff in H2 as [Hc _]. apply negb_true_iff, Ascii.eqb_neq in Hc.
  change (String c s2 +:+ "") with (String c (s2 +:+ "")). cbn [String.prefix].
  destruct (ascii_dec "." c) as [E|]; [now subst|reflexivity].
Qed.

(** In a text [s2 ++ tail] whose only dots are those of [tail], an occurrence
    of ["_sqlite.db"] at the very start pins down the length of [s2]. *)
Lemma sqlite_prefix_length (s2 tail : string) (k : nat) :
  lacks "." s2 = true -> find "." tail = Some k ->
  String.prefix "_sqlite.db" (s2 +:+ tail) = true ->
  (String.length s2 + k = 7)%nat.
Proof.
  intros Hs2 Htail Hpre. apply prefix_app_inv in Hpre as [rest Hrest].
  assert (H : find "." (s2 +:+ tail) = find "." ("_sqlite.db" +:+ rest)) by now rewrite Hrest.
  rewrite !find_app, Htail in H. apply lacks_find in Hs2. rewrite Hs2 in H.
  simpl in H. now injection H.
Qed.

Lemma replace_sqlite_suffix (stem : string) :
  lacks "." stem = true -> Py.replace "_sqlite.db" "" (stem +:+ "_sqlite.db") = stem.
Proof.
  intros Hstem. unfold Py.replace. rewrite replace_from_skip.
  - change (Py.replace_from "_sqlite.db" "" 0 "_sqlite.db") with "". apply append_empty_r.
  - intros s1 s2 -> Hs2. rewrite lacks_app in Hstem. apply andb_true_iff in Hstem as [_ H2].
    destruct (String.prefix "_sqlite.db" (s2 +:+ "_sqlite.db")) eqn:Hpre; [|reflexivity].
    apply (sqlite_prefix_length s2 "_sqlite.db" 7 H2 eq_refl) in Hpre.
    destruct s2 as [|c s2]; [contradiction|].
    change (String.length (String c s2)) with (S (String.length s2)) in Hpre. exfalso. lia.
Qed.

Lemma append_inv_tail (a b t : string) : a +:+ t = b +:+ t -> a = b.
Proof.
  revert b. induction a as [|x a IH]; intros b H.
  - destruct b as [|y b]; [reflexivity|]. exfalso.
    apply (f_equal String.length) in H. rewrite !length_append in H.
    cbn [String.length] in H. lia.
  - destruct b as [|y b].
    + exfalso. apply (f_equal String.length) in H. rewrite !length_append in H.
      cbn [String.length] in H. lia.
    + change (String x (a +:+ t) = String y (b +:+ t)) in H. injection H as -> H.
      now rewrite (IH _ H).
Qed.

Lemma replace_sqlite_absent (stem : string) :
  lacks "." stem = true -> (forall p, stem <> p +:+ "_sqlite") ->
  Py.replace "_sqlite.db" "" (stem +:+ ".db") = stem +:+ ".db".
Proof.
  intros Hstem Hend. unfold Py.replace. rewrite replace_from_skip; [reflexivity|].
  intros s1 s2 -> Hs2. rewrite lacks_app in Hstem. apply andb_true_iff in Hstem as [_ H2].
  destruct (String.prefix "_sqlite.db" (s2 +:+ ".db")) eqn:Hpre; [|reflexivity].
  exfalso. pose proof (sqlite_prefix_length s2 ".db" 0 H2 eq_refl Hpre) as Hlen.
  apply prefix_app_inv in Hpre as [rest Hrest].
  assert (Hl : String.length (s2 +:+ ".db") = String.length ("_sqlite.db" +:+ rest))
    by now rewrite Hrest.
  rewrite !length_append in Hl. cbn [String.length] in Hl.
  destruct rest as [|c rest]; [|cbn [String.length] in Hl; lia].
  change ("_sqlite.db" +:+ "") with ("_sqlite" +:+ ".db") in Hrest.
  apply append_inv_tail in Hrest. subst s2. now apply (Hend s1).
Qed.

(** The run name of an ordinary database file: [stem.db] and [stem_sqlite.db]
    both give [stem], wherever the file lies. *)
Theorem setupArgs_opsimRun (args args' : Namespace) (t : list event)
    (dir stem suffix : string) :
  setupArgs args = (Returns args', t) ->
  opsimDb args = Some (dir +:+ "/" +:+ stem +:+ suffix) ->
  lacks "/" stem = true -> lacks "." stem = true ->
  suffix = "_sqlite.db" \/ (suffix = ".db" /\ forall p, stem <> p +:+ "_sqlite") ->
  opsimRun args' = Some stem.
Proof.
  intros H Hdb Hslash Hdot Hsuffix.
  apply setupArgs_Returns in H as (db & orb & Hdb' & _ & _ & _ & _ & _ & _ & _ & _ & _ & _ & ->).
  rewrite Hdb in Hdb'. injection Hdb' as <-. f_equal. unfold Spec.run_name.
  change (dir +:+ "/" +:+ stem +:+ suffix) with (dir +:+ String "/" (stem +:+ suffix)).
  rewrite os_path_split_tail_dir.
  - destruct Hsuffix as [->|[-> Hend]].
    + rewrite replace_sqlite_suffix by assumption. now apply replace_db_plain.
    + rewrite replace_sqlite_absent by assumption. now apply replace_db_suffix.
  - rewrite lacks_app, Hslash. now destruct Hsuffix as [->|[-> _]].
Qed.

Lemma setupArgs_opsimRun_witness :
  opsimDb sample_args = Some ("/sims" +:+ "/" +:+ "kraken_2026" +:+ ".db") /\
  lacks "/" "kraken_2026" = true /\ lacks "." "kraken_2026" = true /\
  (forall p, "kraken_2026" <> p +:+ "_sqlite") /\
  exists args', setupArgs sample_args = (Returns args', []) /\
                opsimRun args' = Some "kraken_2026".
Proof.
  assert (Hend : forall p, "kraken_2026" <> p +:+ "_sqlite").
  { intros p Hp.
    apply (f_equal (fun s => Py.slice_from (String.length s - 7) s)) in Hp.
    rewrite length_append in Hp. cbn [String.length] in Hp.
    replace (String.length p + 7 - 7)%nat with (String.length p) in Hp by lia.
    change (p +:+ "_sqlite") with (p +:+ String "_" "sqlite") in Hp.
    assert (E : Py.slice_from (String.length p) (p +:+ String "_" "sqlite") = "_sqlite").
    { clear Hp. induction p as [|c p IH]; [reflexivity | exact IH]. }
    rewrite E in Hp. vm_compute in Hp. discriminate Hp. }
  repeat (split; [first [reflexivity | exact Hend]|]).
  eexists. split; [reflexivity|].
  apply (setupArgs_opsimRun sample_args _ [] "/sims" "kraken_2026" ".db" eq_refl eq_refl);
    [reflexivity | reflexivity |].
  right. split; [reflexivity | exact Hend].
Defined.

(** ** The orbit-file base name and the output path *)

(** For an orbit file [base.ext] the base name is [base], wherever the file
    lies and whatever dots [base] has. *)
Theorem setupArgs_orbitbase (args args' : Namespace) (t : list event)
    (dir base ext : string) :
  setupArgs args = (Returns args', t) ->
  orbitFile args = Some (dir +:+ "/" +:+ base +:+ "." +:+ ext) ->
  lacks "/" base = true -> lacks "/" ext = true -> lacks "." ext = true ->
  orbitbase args' = Some base.
Proof.
  intros H Horb Hbase Hext Hdot.
  apply setupArgs_Returns in H as (db & orb & _ & Horb' & _ & _ & _ & _ & _ & _ & _ & _ & -> & _).
  rewrite Horb in Horb'. injection Horb' as <-. f_equal.
  change (dir +:+ "/" +:+ base +:+ "." +:+ ext)
    with (dir +:+ String "/" (base +:+ String "." ext)).
  rewrite os_path_split_tail_dir
    by (rewrite lacks_app; cbn [lacks]; now rewrite Hbase, Hext).
  rewrite (proj1 (join_but_last_split _)). unfold Spec.before_last_dot.
  rewrite (rfind_last _ _ _ Hdot). apply substring_prefix.
Qed.

Lemma setupArgs_orbitbase_witness :
  orbitFile sample_args = Some ("orbits" +:+ "/" +:+ "neos" +:+ "." +:+ "des") /\
  lacks "/" "neos" = true /\ lacks "/" "des" = true /\ lacks "." "des" = true /\
  exists args', setupArgs sample_args = (Returns args', []) /\ orbitbase args' = Some "neos".
Proof.
  repeat (split; [reflexivity|]). eexists. split; [reflexivity|].
  apply (setupArgs_orbitbase sample_args _ [] "orbits" "neos" "des" eq_refl eq_refl);
    reflexivity.
Defined.

Lemma lacks_replace_from (c : ascii) (old : string) (k : nat) (s : string) :
  lacks c s = true -> lacks c (Py.replace_from old "" k s) = true.
Proof.
  revert k. induction s as [|a r IH]; intros k Hs; [reflexivity|].
  cbn [lacks] in Hs. apply andb_true_iff in Hs as [Ha Hr].
  cbn [Py.replace_from]. destruct k as [|k]; [|now apply IH].
  destruct (String.prefix old (String a r)).
  - change ("" +:+ Py.replace_from old "" (String.length old - 1) r)
      with (Py.replace_from old "" (String.length old - 1) r). now apply IH.
  - cbn [lacks]. rewrite Ha. now apply IH.
Qed.

Lemma lacks_substring (c : ascii) (i : nat) (s : string) :
  lacks c s = true -> lacks c (substring 0 i s) = true.
Proof.
  revert i. induction s as [|a r IH]; intros i Hs; [now destruct i|].
  cbn [lacks] in Hs. apply andb_true_iff in Hs as [Ha Hr].
  destruct i as [|i]; [reflexivity|]. cbn [substring lacks]. rewrite Ha. now apply IH.
Qed.

Lemma lacks_not_startswith (c : ascii) (s : string) :
  lacks c s = true -> Py.startswith (String c "") s = false.
Proof.
  destruct s as [|a r]; [reflexivity|]. cbn [lacks]. intros H.
  apply andb_true_iff in H as [Ha _]. apply negb_true_iff, Ascii.eqb_neq in Ha.
  unfold Py.startswith. cbn [String.prefix]. destruct (ascii_dec c a); [now subst|reflexivity].
Qed.

(** Without [--obsFile], the output file lies in [outDir]: its name is built
    from the two base names, has no slash of its own and ends in
    [_obs.txt]. *)
Theorem setupArgs_default_obsFile (args args' : Namespace) (t : list event) :
  setupArgs args = (Returns args', t) ->
  obsFile args = None ->
  exists run base,
    opsimRun args' = Some run /\ orbitbase args' = Some base /\
    lacks "/" (run +:+ "__" +:+ base +:+ "_obs.txt") = true /\
    obsFile args'
    = Some (outDir args
            +:+ (if (String.eqb (outDir args) "" || Py.ends_with_slash (outDir args))%bool
                 then "" else "/")
            +:+ run +:+ "__" +:+ base +:+ "_obs.txt").
Proof.
  intros H Hnone.
  pose proof (setupArgs_obsFile _ _ _ H) as (db & orb & Hdb & Horb & Hfile).
  apply setupArgs_Returns in H
    as (db' & orb' & Hdb' & Horb' & _ & _ & _ & _ & _ & _ & _ & _ & Hbase & Hrun).
  rewrite Hdb in Hdb'. rewrite Horb in Horb'. injection Hdb' as <-. injection Horb' as <-.
  eexists _, _. split; [exact Hrun|]. split; [exact Hbase|].
  assert (Hlacks : lacks "/" (Spec.run_name db +:+ "__"
                    +:+ Py.join "." (Py.but_last (Py.split "." (Py.os_path_split_tail orb)))
                    +:+ "_obs.txt") = true).
  { rewrite !lacks_app. repeat (apply andb_true_iff; split); try reflexivity.
    - unfold Spec.run_name, Py.replace.
      do 2 apply lacks_replace_from. apply os_path_split_tail_lacks.
    - rewrite (proj1 (join_but_last_split _)). unfold Spec.before_last_dot.
      destruct (Py.rfind "." (Py.os_path_split_tail orb)); [|reflexivity].
      apply lacks_substring, os_path_split_tail_lacks. }
  split; [exact Hlacks|].
  rewrite Hfile, Hnone. f_equal. unfold Py.os_path_join.
  rewrite (lacks_not_startswith _ _ Hlacks).
  destruct (String.eqb (outDir args) "" || Py.ends_with_slash (outDir args))%bool;
    reflexivity.
Qed.

Lemma setupArgs_default_obsFile_witness :
  obsFile sample_args = None /\
  exists args', setupArgs sample_args = (Returns args', []) /\
                obsFile args' = Some "out/kraken_2026__neos_obs.txt".
Proof.
  split; [reflexivity|]. eexists. split; [reflexivity|].
  destruct (setupArgs_default_obsFile sample_args _ [] eq_refl eq_refl)
    as (run & base & Hrun & Hbase & _ & ->).
  injection Hrun as <-. injection Hbase as <-. reflexivity.
Defined.

(** An absolute [--obsFile] is taken as it is: [outDir] plays no part. *)
Theorem setupArgs_absolute_obsFile (args args' : Namespace) (t : list event)
    (given : string) :
  setupArgs args = (Returns args', t) ->
  obsFile args = Some (String "/" given) ->
  obsFile args' = Some (String "/" given).
Proof.
  intros H Hgiven. apply setupArgs_obsFile in H as (db & orb & _ & _ & ->).
  rewrite Hgiven. unfold Py.os_path_join, Py.startswith. cbn [String.prefix].
  destruct (ascii_dec "/" "/") as [_|Hne]; [now destruct given|now destruct Hne].
Qed.

Lemma setupArgs_absolute_obsFile_witness :
  obsFile absolute_args = Some (String "/" "tmp/obs.txt") /\
  exists args', setupArgs absolute_args = (Returns args', []) /\
                obsFile args' = Some "/tmp/obs.txt".
Proof.
  split; [reflexivity|]. eexists. split; [reflexivity|].
  apply (setupArgs_absolute_obsFile absolute_args _ [] "tmp/obs.txt" eq_refl eq_refl).
Defined.

(** ** What must have happened before a call *)

Lemma bind_Raises_pair {A B} (e : exn) (t : list event) (k : A -> M B) :
  bind (Raises e, t) k = (Raises e, t).
Proof. reflexivity. Qed.

Lemma guarded_bind {A B} (ev : event) (Q : M B -> Prop) (m : M A) (k : A -> M B) :
  ev ∉ snd m ->
  (forall a t, m = (Returns a, t) -> guarded ev (fun r => Q (prepend t r)) (k a)) ->
  guarded ev Q (bind m k).
Proof.
  intros Hnot Hk Hin. destruct m as [[a|e] t].
  - rewrite bind_Returns_pair in *. apply (Hk a t eq_refl).
    rewrite snd_prepend in Hin. apply elem_of_app in Hin as [Hin|Hin]; [|exact Hin].
    now destruct Hnot.
  - now destruct Hnot.
Qed.

Lemma calls_all_notin {A} (P : event -> Prop) (m : M A) (ev : event) :
  calls_all P m -> ~ P ev -> ev ∉ snd m.
Proof.
  unfold calls_all. intros Hall Hev Hin. rewrite Forall_forall in Hall. now apply Hev, Hall.
Qed.

Lemma notin_call {A} (ev ev' : event) (r : reply A) : ev <> ev' -> ev ∉ snd (call ev' r).
Proof. intros Hne Hin. apply list_elem_of_singleton in Hin. contradiction. Qed.

Lemma notin_emit (ev ev' : event) : ev <> ev' -> ev ∉ snd (emit ev').
Proof. intros Hne Hin. apply list_elem_of_singleton in Hin. contradiction. Qed.

Lemma notin_subscript (ev : event) (d : gmap string string) (key : string) :
  ev ∉ snd (subscript d key).
Proof. rewrite subscript_snd. apply not_elem_of_nil. Qed.

Lemma notin_ret {A} (ev : event) (a : A) : ev ∉ snd (ret a).
Proof. apply not_elem_of_nil. Qed.

Lemma notin_raise {A} (ev : event) (e : exn) : ev ∉ snd (@raise A e).
Proof. apply not_elem_of_nil. Qed.

(** The queries of the trial loop are all of one kind. *)
Lemma trial_queries_only_queries (w : World) opsimfile constraint more_cols failed_cols :
  calls_all (fun ev => exists col, ev = QueryColumns [col] constraint 1)
            (trial_queries w opsimfile constraint more_cols failed_cols).
Proof.
  revert failed_cols. induction more_cols as [|col rest IH]; intros failed_cols; simpl.
  - along.
  - along; first [apply IH | eauto].
Qed.

Lemma notin_trial_queries (w : World) (ev : event) opsimfile constraint more_cols failed_cols :
  (forall cols c n, ev <> QueryColumns cols c n) ->
  ev ∉ snd (trial_queries w opsimfile constraint more_cols failed_cols).
Proof.
  intros Hev. eapply calls_all_notin; [apply trial_queries_only_queries|].
  intros [col ->]. now apply (Hev [col] constraint 1%nat).
Qed.

Lemma notin_remove_failed (ev : event) failed_cols more_cols :
  ev ∉ snd (remove_failed failed_cols more_cols).
Proof.
  eapply calls_all_notin; [apply (remove_failed_calls (fun _ => False))|]. tauto.
Qed.

(** Steps through the binds of a computation for as long as the call in
    question cannot have been made yet. *)
Ltac step_guarded :=
  repeat (apply guarded_bind;
          [ first [ apply notin_subscript | apply notin_ret | apply notin_raise
                  | apply notin_call; discriminate | apply notin_emit; discriminate
                  | apply notin_trial_queries; discriminate
                  | apply notin_remove_failed
                  | match goal with
                    | |- _ ∉ snd (match ?x with _ => _ end) =>
                        destruct x;
                        first [ apply notin_ret | apply notin_raise
                              | rewrite snd_bind, subscript_snd;
                                destruct (fst (subscript _ _)); apply not_elem_of_nil ]
                    end ]
          | let a := fresh "a" in let t := fresh "t" in let Hm := fresh "Hm" in
            intros a t Hm ]).

(** [readOpsim] closes the database only after the final fetch has returned:
    whenever the close was called, the fetch had succeeded, and the read then
    ends as the close does. On every earlier failure the database is left
    open. *)
Theorem readOpsim_close_after_fetch (w : World) (opsimfile : string)
    (constraint : option string) (footprint : string) (dbcols : option (list string)) :
  OpsdbClose ∈ snd (readOpsim w opsimfile constraint footprint dbcols) ->
  exists cols simdata,
    fetchMetricData w opsimfile cols constraint = Done simdata /\
    match opsdb_close w opsimfile with
    | Done _ =>
        exists colmap,
          fst (readOpsim w opsimfile constraint footprint dbcols) = Returns (simdata, colmap)
    | Fails c msg =>
        fst (readOpsim w opsimfile constraint footprint dbcols) = Raises (Ext c msg)
    end.
Proof.
  change (guarded OpsdbClose
    (fun r => exists cols simdata,
       fetchMetricData w opsimfile cols constraint = Done simdata /\
       match opsdb_close w opsimfile with
       | Done _ => exists colmap, fst r = Returns (simdata, colmap)
       | Fails c msg => fst r = Raises (Ext c msg)
       end)
    (readOpsim w opsimfile constraint footprint dbcols)).
  unfold readOpsim. step_guarded. intros _.
  match goal with
  | H : call (FetchMetricData ?cols _) _ = (Returns ?sd, _) |- _ =>
      apply call_Returns in H as [H _]; exists cols, sd; split; [exact H|]
  end.
  rewrite !fst_prepend.
  destruct (opsdb_close w opsimfile) as [[]|c msg].
  - eexists. rewrite bind_call_Done, fst_prepend, bind_emit, fst_prepend. reflexivity.
  - now rewrite bind_call_Fails.
Qed.

Lemma readOpsim_close_after_fetch_witness :
  OpsdbClose ∈ snd (readOpsim sample_world "kraken_2026.db" None "circle" None) /\
  exists cols simdata,
    fetchMetricData sample_world "kraken_2026.db" cols None = Done simdata /\
    match opsdb_close sample_world "kraken_2026.db" with
    | Done _ =>
        exists colmap,
          fst (readOpsim sample_world "kraken_2026.db" None "circle" None)
          = Returns (simdata, colmap)
    | Fails c msg =>
        fst (readOpsim sample_world "kraken_2026.db" None "circle" None)
        = Raises (Ext c msg)
    end.
Proof.
  assert (Hin : OpsdbClose ∈ snd (readOpsim sample_world "kraken_2026.db" None "circle" None)).
  { vm_compute. repeat first [left | right]. }
  split; [exact Hin|].
  exact (readOpsim_close_after_fetch sample_world "kraken_2026.db" None "circle" None Hin).
Defined.

(** ** [runObs] and [readOrbits] along failing paths *)

Lemma notin_common_kwargs (ev : event) args colmap : ev ∉ snd (common_kwargs args colmap).
Proof. rewrite common_kwargs_snd. apply not_elem_of_nil. Qed.

Lemma notin_runObs_construct (w : World) (ev : event) args colmap :
  (forall s, ev <> Print s) -> (forall o, ev <> NewObs o) ->
  ev ∉ snd (runObs_construct w args colmap).
Proof.
  intros Hp Hn. eapply (calls_all_notin (fun ev' => ev' <> ev)); [|now intros H].
  unfold runObs_construct, common_kwargs.
  along.
Qed.

Lemma notin__setupColors (w : World) (ev : event) obs filterlist orbits :
  (forall o fl, ev <> ReadFilters o fl) -> (forall o s, ev <> CalcColors o s) ->
  ev ∉ snd (_setupColors w obs filterlist orbits).
Proof.
  intros Hf Hc. eapply (calls_all_notin (fun ev' => ev' <> ev)); [|now intros H].
  unfold _setupColors. along.
  eapply Forall_impl; [apply calcColors_loop_calls|].
  intros ev' [s ->] E. subst ev. eapply Hc; reflexivity.
Qed.

Lemma _setupColors_colours (w : World) obs filterlist orbits obs' t :
  _setupColors w obs filterlist orbits = (Returns obs', t) ->
  exists seds,
    sed_filename orbits = Some seds /\
    Forall (fun s => calcColors w obs s = Done tt) (Py.np_unique seds).
Proof.
  unfold _setupColors. intros H.
  inv_bind H Hf. inv_bind H Hcol.
  destruct (sed_filename orbits) as [column|]; [|discriminate].
  apply ret_Returns in Hcol as [<- ->].
  inv_bind H Hloop. apply calcColors_loop_Returns in Hloop as [_ Hall].
  now exists column.
Qed.

(** [run] is the last thing [runObs] does, and it is reached only when the
    object was constructed, its filters were read and every colour was
    computed without an exception, whether or not [run] itself then
    raises. *)
Theorem runObs_run_last (w : World) (orbits : Orbits) (simdata : SimData)
    (args : Namespace) (colmap : gmap string string)
    (obs : Obs) (orbits' : Orbits) (simdata' : SimData) :
  Run obs orbits' simdata' ∈ snd (runObs w orbits simdata args colmap) ->
  orbits' = orbits /\ simdata' = simdata /\
  Obs_init w obs = Done tt /\
  exists banner filters seds,
    sd_filter simdata = Some filters /\ sed_filename orbits = Some seds /\
    readFilters w obs (Py.np_unique filters) = Done tt /\
    Forall (fun s => calcColors w obs s = Done tt) (Py.np_unique seds) /\
    snd (runObs w orbits simdata args colmap)
    = [Print banner; NewObs obs; ReadFilters obs (Py.np_unique filters)]
      ++ map (CalcColors obs) (Py.np_unique seds) ++ [Run obs orbits simdata].
Proof.
  change (guarded (Run obs orbits' simdata')
    (fun r =>
       orbits' = orbits /\ simdata' = simdata /\ Obs_init w obs = Done tt /\
       exists banner filters seds,
         sd_filter simdata = Some filters /\ sed_filename orbits = Some seds /\
         readFilters w obs (Py.np_unique filters) = Done tt /\
         Forall (fun s => calcColors w obs s = Done tt) (Py.np_unique seds) /\
         snd r = [Print banner; NewObs obs; ReadFilters obs (Py.np_unique filters)]
                 ++ map (CalcColors obs) (Py.np_unique seds) ++ [Run obs orbits simdata])
    (runObs w orbits simdata args colmap)).
  unfold runObs.
  apply guarded_bind; [apply notin_runObs_construct; discriminate|intros obs0 t0 Hc].
  apply guarded_bind;
    [destruct (sd_filter simdata); [apply notin_ret | apply notin_raise]|intros column t1 Hf].
  apply guarded_bind; [apply notin__setupColors; discriminate|intros obs1 t2 Hs].
  intros Hin. apply list_elem_of_singleton in Hin. injection Hin as -> -> ->.
  apply runObs_construct_Returns in Hc as (Hinit & kw & banner & _ & -> & _).
  destruct (sd_filter simdata) as [filters|]; [|discriminate].
  apply ret_Returns in Hf as [<- ->].
  destruct (_setupColors_colours _ _ _ _ _ _ Hs) as (seds' & Hseds' & Hall).
  apply _setupColors_Returns in Hs as (Eobs & Hrf & seds & Hseds & Et2). subst.
  rewrite Hseds in Hseds'. injection Hseds' as <-.
  repeat split; try assumption. exists banner, filters, seds.
  repeat split; assumption.
Qed.

Lemma runObs_run_last_witness :
  (exists obs,
      Run obs sample_orbits sample_simdata
      ∈ snd (runObs sample_world sample_orbits sample_simdata capital_args sample_colmap) /\
      readFilters sample_world obs (Py.np_unique ["r"; "g"; "r"]) = Done tt).
Proof.
  eexists. split.
  - vm_compute. repeat first [left | right].
  - match goal with
    | |- readFilters _ ?o _ = _ =>
        assert (Hin : Run o sample_orbits sample_simdata
                      ∈ snd (runObs sample_world sample_orbits sample_simdata capital_args
                               sample_colmap))
          by (vm_compute; repeat first [left | right]);
        destruct (runObs_run_last _ _ _ _ _ _ _ _ Hin)
          as (_ & _ & _ & banner & filters & seds & Hf & _ & Hrf & _)
    end.
    injection Hf as <-. exact Hrf.
Defined.

(** With a column map that lacks an entry [runObs] reads, the KeyError comes
    after the banner is printed and before any object is constructed. *)
Theorem runObs_missing_column (w : World) (orbits : Orbits) (simdata : SimData)
    (args : Namespace) (colmap : gmap string string) (key : string) :
  Py.lower (obsType args) = "linear" \/ Py.lower (obsType args) = "direct" ->
  key ∈ ["mjd"; "seeingGeom"; "exptime"; "ra"; "dec"; "rotSkyPos"; "raDecDeg"] ->
  colmap !! key = None ->
  exists missing banner,
    colmap !! missing = None /\
    runObs w orbits simdata args colmap = (Raises (Ext KeyError missing), [Print banner]).
Proof.
  intros Hty Hkey Hnone.
  assert (Hkw : exists missing,
             colmap !! missing = None /\
             common_kwargs args colmap = (Raises (Ext KeyError missing), [])).
  { unfold common_kwargs.
    repeat match goal with
    | |- context [subscript colmap ?k] =>
        let E := fresh "E" in
        destruct (colmap !! k) as [?v|] eqn:E;
        [rewrite (bind_subscript _ _ _ _ E)
        |exists k; split; [exact E|]; unfold subscript; rewrite E; reflexivity]
    end.
    exfalso. repeat (apply elem_of_cons in Hkey as [->|Hkey]; [congruence|]).
    inversion Hkey. }
  destruct Hkw as (missing & Hmiss & Hkw). exists missing.
  unfold runObs, runObs_construct.
  destruct Hty as [Hty|Hty]; rewrite Hty.
  - rewrite String.eqb_refl, bind_emit, Hkw. eexists. split; [exact Hmiss|]. reflexivity.
  - replace (String.eqb "direct" "linear") with false by reflexivity.
    rewrite String.eqb_refl, bind_emit, Hkw. eexists. split; [exact Hmiss|]. reflexivity.
Qed.

Lemma runObs_missing_column_witness :
  Py.lower (obsType capital_args) = "linear" /\
  (∅ : gmap string string) !! "mjd" = None /\
  exists missing banner,
    runObs sample_world sample_orbits sample_simdata capital_args ∅
    = (Raises (Ext KeyError missing), [Print banner]).
Proof.
  split; [reflexivity|]. split; [reflexivity|].
  destruct (runObs_missing_column sample_world sample_orbits sample_simdata capital_args
              ∅ "mjd" (or_introl eq_refl)) as (missing & banner & _ & H);
    [left | reflexivity |].
  now exists missing, banner.
Defined.

(** [readOrbits] logs its critical message exactly when the path names no
    file. *)
Theorem readOrbits_critical_iff (w : World) (orbitfile : string) :
  (exists m, LoggingCritical m ∈ snd (readOrbits w orbitfile)) <->
  os_path_isfile w orbitfile = false.
Proof.
  split.
  - intros [m Hin]. destruct (os_path_isfile w orbitfile) eqn:Hfile; [|reflexivity].
    exfalso. revert Hin. unfold readOrbits. rewrite Hfile. cbn [negb].
    rewrite bind_emit, bind_ret, snd_prepend.
    destruct (Orbits_init w) as [[]|c msg];
      [rewrite bind_call_Done, snd_prepend;
       destruct (Orbits_readOrbits w orbitfile) as [o|c msg];
       [rewrite bind_call_Done, bind_emit, !snd_prepend|rewrite bind_call_Fails]
      |rewrite bind_call_Fails];
      simpl; intros Hin;
      repeat (apply elem_of_cons in Hin as [Hin|Hin]; [discriminate Hin|]);
      inversion Hin.
  - intros Hfile. eexists.
    unfold readOrbits. rewrite Hfile. cbn [negb].
    rewrite !bind_emit, !snd_prepend. right. left.
Qed.

(** ** [readOpsim] along failing paths *)

(** When the column map, after the [rotSkyPos] fallback, lacks one of the
    eight names every read needs, [readOpsim] raises KeyError before it
    queries anything: the database was opened and the map fetched, no more. *)
Theorem readOpsim_missing_entry (w : World) (opsimfile : string)
    (constraint : option string) (footprint : string) (dbcols : option (list string))
    (colmap0 : gmap string string) (key : string) :
  OpsimDatabase_init w opsimfile = Done tt ->
  getColMap w opsimfile = Done colmap0 ->
  key ∈ ["mjd"; "night"; "ra"; "dec"; "filter"; "exptime"; "seeingGeom"; "fiveSigmaDepth"] ->
  with_rotSkyPos colmap0 !! key = None ->
  exists missing,
    with_rotSkyPos colmap0 !! missing = None /\
    readOpsim w opsimfile constraint footprint dbcols
    = (Raises (Ext KeyError missing), [NewOpsimDatabase opsimfile; GetColMap]).
Proof.
  intros Hdb Hmap Hkey Hnone.
  unfold readOpsim. rewrite Hdb, bind_call_Done, Hmap, bind_call_Done.
  cbv zeta. rewrite rotSkyPos_fallback. set (colmap := with_rotSkyPos colmap0) in *.
  repeat match goal with
  | |- context [bind (subscript colmap ?k) _] =>
      lazymatch k with
      | "rotSkyPos" => fail
      | "seeingEff" => fail
      | _ => idtac
      end;
      let E := fresh "E" in
      destruct (colmap !! k) as [?v|] eqn:E;
      [rewrite (bind_subscript _ _ _ _ E)
      |exists k; split; [exact E|]; unfold subscript; rewrite E; reflexivity]
  end.
  exfalso. repeat (apply elem_of_cons in Hkey as [->|Hkey]; [congruence|]).
  inversion Hkey.
Qed.

Lemma readOpsim_missing_entry_witness :
  OpsimDatabase_init (world_with ∅) "kraken_2026.db" = Done tt /\
  getColMap (world_with ∅) "kraken_2026.db" = Done ∅ /\
  with_rotSkyPos ∅ !! "mjd" = None /\
  exists missing,
    readOpsim (world_with ∅) "kraken_2026.db" None "circle" None
    = (Raises (Ext KeyError missing), [NewOpsimDatabase "kraken_2026.db"; GetColMap]).
Proof.
  assert (H : with_rotSkyPos (∅ : gmap string string) !! "mjd" = None)
    by (vm_compute; reflexivity).
  repeat (split; [first [reflexivity | exact H]|]).
  destruct (readOpsim_missing_entry (world_with ∅) "kraken_2026.db" None "circle" None
              ∅ "mjd" eq_refl eq_refl) as (missing & _ & Hrun); [left | exact H |].
  now exists missing.
Defined.

(** Up to the query for the required columns. *)
Lemma readOpsim_until_required (w : World) (opsimfile : string)
    (constraint : option string) (footprint : string) (dbcols : option (list string))
    (colmap0 : gmap string string)
    (c_mjd c_night c_ra c_dec c_filter c_exptime c_seeingGeom c_depth : string) :
  OpsimDatabase_init w opsimfile = Done tt ->
  getColMap w opsimfile = Done colmap0 ->
  let colmap := with_rotSkyPos colmap0 in
  (colmap !!.) <$> ["mjd"; "night"; "ra"; "dec"; "filter"; "exptime"; "seeingGeom";
                    "fiveSigmaDepth"]
  = Some <$> [c_mjd; c_night; c_ra; c_dec; c_filter; c_exptime; c_seeingGeom; c_depth] ->
  let c_rot := default "rotSkyPos" (colmap0 !! "rotSkyPos") in
  let required :=
    [c_mjd; c_night; c_ra; c_dec; c_filter; c_exptime; c_seeingGeom; c_depth]
    ++ (if String.eqb footprint "camera" then [c_rot] else []) ++ default [] dbcols in
  readOpsim w opsimfile constraint footprint dbcols
  = prepend [NewOpsimDatabase opsimfile; GetColMap]
      (let! _ := call (QueryColumns (Py.list_set required) constraint 1)
                      (query_columns w opsimfile (Py.list_set required) constraint 1) in
       let! c_rot := subscript colmap "rotSkyPos" in
       let! c_seeingEff := subscript colmap "seeingEff" in
       let more_cols := [c_rot; c_seeingEff; "solarElong"] in
       let! failed_cols := trial_queries w opsimfile constraint more_cols [] in
       let! more_cols := remove_failed failed_cols more_cols in
       let cols := Py.list_set (Py.list_set required ++ more_cols) in
       let! _ := emit (LoggingInfo (Fmt ("Querying for columns:" +:+ Py.nl +:+ " %s")
                                        [OList cols])) in
       let! simdata := call (FetchMetricData cols constraint)
                            (fetchMetricData w opsimfile cols constraint) in
       let! _ := call OpsdbClose (opsdb_close w opsimfile) in
       let! _ := emit (LoggingInfo (Fmt "Queried data from opsim %s, fetched %d visits."
                                        [OStr opsimfile; OInt (sd_len simdata)])) in
       ret (simdata, colmap)).
Proof.
  intros Hdb Hmap colmap Hlook c_rot required.
  injection Hlook as Hmjd Hnight Hra Hdec Hfilter Hexp Hgeom Hdepth.
  assert (Hrot : colmap !! "rotSkyPos" = Some c_rot) by apply with_rotSkyPos_lookup.
  unfold readOpsim. rewrite Hdb, bind_call_Done, Hmap, bind_call_Done.
  cbv zeta. rewrite rotSkyPos_fallback. fold colmap.
  rewrite (bind_subscript _ _ _ _ Hmjd), (bind_subscript _ _ _ _ Hnight),
    (bind_subscript _ _ _ _ Hra), (bind_subscript _ _ _ _ Hdec),
    (bind_subscript _ _ _ _ Hfilter), (bind_subscript _ _ _ _ Hexp),
    (bind_subscript _ _ _ _ Hgeom), (bind_subscript _ _ _ _ Hdepth).
  assert (Hreq : forall base,
    base ++ default [] dbcols = required ->
    match dbcols with Some extra => base ++ extra | None => base end = required).
  { intros base <-. destruct dbcols; simpl; now rewrite ?app_nil_r. }
  assert (Hbase :
    ([c_mjd; c_night; c_ra; c_dec; c_filter; c_exptime; c_seeingGeom; c_depth]
     ++ (if String.eqb footprint "camera" then [c_rot] else [])) ++ default [] dbcols
    = required) by (unfold required; now rewrite <- app_assoc).
  destruct (String.eqb footprint "camera") eqn:Hfp;
    [rewrite (bind_subscript _ _ _ _ Hrot)|]; rewrite bind_ret;
    [|rewrite app_nil_r in Hbase]; rewrite (Hreq _ Hbase), prepend_prepend;
    reflexivity.
Qed.

(** The query for the required columns is not guarded: when it raises, also
    a ValueError, [readOpsim] raises the same; no optional column is tried,
    nothing is fetched and the database is not closed. *)
Theorem readOpsim_required_query_fails (w : World) (opsimfile : string)
    (constraint : option string) (footprint : string) (dbcols : option (list string))
    (colmap0 : gmap string string)
    (c_mjd c_night c_ra c_dec c_filter c_exptime c_seeingGeom c_depth : string)
    (c : exn_class) (msg : string) :
  OpsimDatabase_init w opsimfile = Done tt ->
  getColMap w opsimfile = Done colmap0 ->
  (with_rotSkyPos colmap0 !!.)
    <$> ["mjd"; "night"; "ra"; "dec"; "filter"; "exptime"; "seeingGeom"; "fiveSigmaDepth"]
  = Some <$> [c_mjd; c_night; c_ra; c_dec; c_filter; c_exptime; c_seeingGeom; c_depth] ->
  let required :=
    [c_mjd; c_night; c_ra; c_dec; c_filter; c_exptime; c_seeingGeom; c_depth]
    ++ (if String.eqb footprint "camera"
        then [default "rotSkyPos" (colmap0 !! "rotSkyPos")] else [])
    ++ default [] dbcols in
  query_columns w opsimfile (Py.list_set required) constraint 1 = Fails c msg ->
  readOpsim w opsimfile constraint footprint dbcols
  = (Raises (Ext c msg),
     [NewOpsimDatabase opsimfile; GetColMap; QueryColumns (Py.list_set required) constraint 1]).
Proof.
  intros Hdb Hmap Hlook required Hquery.
  rewrite (readOpsim_until_required w opsimfile constraint footprint dbcols colmap0
             _ _ _ _ _ _ _ _ Hdb Hmap Hlook).
  fold required. rewrite Hquery, bind_call_Fails. reflexivity.
Qed.

(** The trial loop stops at the first optional column whose query raises
    something other than ValueError: the columns before it were tried, the
    ones after it are not, and the exception leaves the loop. *)
Lemma trial_queries_stop (w : World) (opsimfile : string) (constraint : option string)
    (before after failed_cols : list string) (col : string) (c : exn_class) (msg : string) :
  Forall (harmless w opsimfile constraint) before ->
  query_columns w opsimfile [col] constraint 1 = Fails c msg ->
  c <> ValueError ->
  trial_queries w opsimfile constraint (before ++ col :: after) failed_cols
  = (Raises (Ext c msg),
     map (fun col => QueryColumns [col] constraint 1) (before ++ [col])).
Proof.
  intros Hbefore Hcol Hc. revert failed_cols.
  induction before as [|b before IH]; intros failed_cols.
  - cbn [app trial_queries map]. rewrite trial_turn, Hcol.
    destruct c; try reflexivity. now destruct Hc.
  - apply Forall_cons in Hbefore as [Hb Hbefore].
    cbn [app trial_queries map]. rewrite trial_turn.
    destruct Hb as [Hb|Hb].
    + rewrite Hb, bind_Returns_pair, (IH Hbefore). reflexivity.
    + unfold trial_fails in Hb.
      destruct (query_columns w opsimfile [b] constraint 1) as [u|c' msg']; [discriminate|].
      destruct c'; try discriminate.
      rewrite bind_Returns_pair, (IH Hbefore). reflexivity.
Qed.

(** Only ValueError is forgiven in the trial queries: when the query of an
    optional column raises anything else, [readOpsim] raises it, fetches
    nothing and leaves the database open. *)
Theorem readOpsim_trial_other_exception (w : World) (opsimfile : string)
    (constraint : option string) (footprint : string) (dbcols : option (list string))
    (colmap0 : gmap string string)
    (c_mjd c_night c_ra c_dec c_filter c_exptime c_seeingGeom c_depth c_seeingEff : string)
    (before after : list string) (col : string) (c : exn_class) (msg : string) :
  OpsimDatabase_init w opsimfile = Done tt ->
  getColMap w opsimfile = Done colmap0 ->
  (with_rotSkyPos colmap0 !!.)
    <$> ["mjd"; "night"; "ra"; "dec"; "filter"; "exptime"; "seeingGeom"; "fiveSigmaDepth"]
  = Some <$> [c_mjd; c_night; c_ra; c_dec; c_filter; c_exptime; c_seeingGeom; c_depth] ->
  with_rotSkyPos colmap0 !! "seeingEff" = Some c_seeingEff ->
  let c_rot := default "rotSkyPos" (colmap0 !! "rotSkyPos") in
  let required :=
    [c_mjd; c_night; c_ra; c_dec; c_filter; c_exptime; c_seeingGeom; c_depth]
    ++ (if String.eqb footprint "camera" then [c_rot] else []) ++ default [] dbcols in
  query_columns w opsimfile (Py.list_set required) constraint 1 = Done tt ->
  [c_rot; c_seeingEff; "solarElong"] = before ++ col :: after ->
  Forall (harmless w opsimfile constraint) before ->
  query_columns w opsimfile [col] constraint 1 = Fails c msg ->
  c <> ValueError ->
  readOpsim w opsimfile constraint footprint dbcols
  = (Raises (Ext c msg),
     [NewOpsimDatabase opsimfile; GetColMap; QueryColumns (Py.list_set required) constraint 1]
     ++ map (fun col => QueryColumns [col] constraint 1) (before ++ [col])).
Proof.
  intros Hdb Hmap Hlook Heff c_rot required Hquery Hsplit Hbefore Hcol Hc.
  rewrite (readOpsim_until_required w opsimfile constraint footprint dbcols colmap0
             _ _ _ _ _ _ _ _ Hdb Hmap Hlook).
  fold c_rot. fold required.
  assert (Hrot : with_rotSkyPos colmap0 !! "rotSkyPos" = Some c_rot)
    by apply with_rotSkyPos_lookup.
  rewrite Hquery, bind_call_Done, (bind_subscript _ _ _ _ Hrot),
    (bind_subscript _ _ _ _ Heff).
  cbv zeta. rewrite Hsplit, (trial_queries_stop _ _ _ _ _ _ _ _ _ Hbefore Hcol Hc).
  rewrite bind_Raises_pair. reflexivity.
Qed.

Lemma readOpsim_required_query_fails_witness :
  readOpsim nightless_world "kraken_2026.db" None "circle" None
  = (Raises (Ext ValueError "no such column: night"),
     [NewOpsimDatabase "kraken_2026.db"; GetColMap;
      QueryColumns
        (Py.list_set ["observationStartMJD"; "night"; "fieldRA"; "fieldDec"; "filter";
                      "visitExposureTime"; "seeingFwhmGeom"; "fiveSigmaDepth"])
        None 1]).
Proof.
  apply (readOpsim_required_query_fails nightless_world "kraken_2026.db" None "circle" None
           sample_colmap "observationStartMJD" "night" "fieldRA" "fieldDec" "filter"
           "visitExposureTime" "seeingFwhmGeom" "fiveSigmaDepth");
    try reflexivity; vm_compute; reflexivity.
Defined.

Lemma readOpsim_trial_other_exception_witness :
  readOpsim locked_world "kraken_2026.db" None "circle" None
  = (Raises (Ext (OtherException "OperationalError") "database is locked"),
     [NewOpsimDatabase "kraken_2026.db"; GetColMap;
      QueryColumns
        (Py.list_set ["observationStartMJD"; "night"; "fieldRA"; "fieldDec"; "filter";
                      "visitExposureTime"; "seeingFwhmGeom"; "fiveSigmaDepth"])
        None 1;
      QueryColumns ["rotSkyPos"] None 1; QueryColumns ["seeingFwhmEff"] None 1]).
Proof.
  apply (readOpsim_trial_other_exception locked_world "kraken_2026.db" None "circle" None
           sample_colmap "observationStartMJD" "night" "fieldRA" "fieldDec" "filter"
           "visitExposureTime" "seeingFwhmGeom" "fiveSigmaDepth" "seeingFwhmEff"
           ["rotSkyPos"] ["solarElong"] "seeingFwhmEff"
           (OtherException "OperationalError") "database is locked");
    try reflexivity; try discriminate; try (vm_compute; reflexivity).
  constructor; [left; vm_compute; reflexivity | constructor].
Defined.

(** ** The distinct filters and colours *)

#[global] Instance str_le_total : Total Py.str_le.
Proof. intros a b. unfold Py.str_le. apply String.leb_total. Qed.

#[global] Instance str_le_trans : Transitive Py.str_le.
Proof.
  intros a b c Hab Hbc. unfold Py.str_le in *.
  apply Is_true_true. apply Is_true_true in Hab, Hbc.
  exact (transitivity (R := String.le) Hab Hbc).
Qed.

(** [np.unique] gives each value once, in ascending order. *)
Lemma np_unique_spec (l : list string) :
  StronglySorted Py.str_le (Py.np_unique l) /\ NoDup (Py.np_unique l) /\
  forall x, x ∈ Py.np_unique l <-> x ∈ l.
Proof.
  unfold Py.np_unique. split; [apply StronglySorted_merge_sort; apply _|]. split.
  - rewrite merge_sort_Permutation. apply NoDup_remove_dups.
  - intros x. rewrite merge_sort_Permutation. apply elem_of_remove_dups.
Qed.

Lemma colours_computed_map (obs : Obs) (l : list string) :
  colours_computed (map (CalcColors obs) l) = l.
Proof.
  unfold colours_computed. induction l as [|s l IH]; [reflexivity|].
  cbn [map choose]. now f_equal.
Qed.

(** On a run of [runObs] that ends well, the filters are read once, as the
    distinct values of [simdata['filter']] in ascending order, and the colours
    are computed once for each distinct [sed_filename] of the orbits, in
    ascending order. *)
Theorem runObs_filters_and_colours (w : World) (orbits : Orbits) (simdata : SimData)
    (args : Namespace) (colmap : gmap string string) (u : unit) (t : list event) :
  runObs w orbits simdata args colmap = (Returns u, t) ->
  exists filters seds filterlist,
    sd_filter simdata = Some filters /\ sed_filename orbits = Some seds /\
    filters_read t = [filterlist] /\
    StronglySorted Py.str_le filterlist /\ NoDup filterlist /\
    (forall f, f ∈ filterlist <-> f ∈ filters) /\
    StronglySorted Py.str_le (colours_computed t) /\ NoDup (colours_computed t) /\
    (forall s, s ∈ colours_computed t <-> s ∈ seds).
Proof.
  intros H.
  apply runObs_Returns in H as (obs & banner & filters & seds & _ & Hf & Hs & _ & ->).
  exists filters, seds, (Py.np_unique filters).
  assert (Hc : colours_computed
                 ([Print banner; NewObs obs; ReadFilters obs (Py.np_unique filters)]
                  ++ map (CalcColors obs) (Py.np_unique seds) ++ [Run obs orbits simdata])
               = Py.np_unique seds).
  { unfold colours_computed. rewrite !choose_app. cbn [choose app].
    fold (colours_computed (map (CalcColors obs) (Py.np_unique seds))).
    now rewrite colours_computed_map, app_nil_r. }
  assert (Hr : filters_read
                 ([Print banner; NewObs obs; ReadFilters obs (Py.np_unique filters)]
                  ++ map (CalcColors obs) (Py.np_unique seds) ++ [Run obs orbits simdata])
               = [Py.np_unique filters]).
  { unfold filters_read. rewrite !choose_app. cbn [choose app]. f_equal.
    rewrite app_nil_r. apply choose_none. apply Forall_forall. intros ev Hev.
    apply list_elem_of_fmap in Hev as (s & -> & _). reflexivity. }
  rewrite Hc, Hr.
  destruct (np_unique_spec filters) as (S1 & N1 & E1).
  destruct (np_unique_spec seds) as (S2 & N2 & E2).
  repeat split; try assumption; try apply E1; try apply E2.
Qed.

Lemma runObs_filters_and_colours_witness :
  exists t,
    runObs sample_world sample_orbits sample_simdata capital_args sample_colmap
    = (Returns tt, t) /\
    exists filters seds filterlist,
      sd_filter sample_simdata = Some filters /\ sed_filename sample_orbits = Some seds /\
      filters_read t = [filterlist] /\
      StronglySorted Py.str_le filterlist /\ NoDup filterlist /\
      (forall f, f ∈ filterlist <-> f ∈ filters) /\
      StronglySorted Py.str_le (colours_computed t) /\ NoDup (colours_computed t) /\
      (forall s, s ∈ colours_computed t <-> s ∈ seds).
Proof.
  eexists. split; [vm_compute; reflexivity|].
  exact (runObs_filters_and_colours sample_world sample_orbits sample_simdata
           capital_args sample_colmap tt _ eq_refl).
Defined.

(** ** The driver along failing paths *)





Lemma notin_setupArgs (ev : event) (args : Namespace) : ev ∉ snd (setupArgs args).
Proof. rewrite setupArgs_snd. apply not_elem_of_nil. Qed.


Lemma notin_outside (s : step) (ev : event) (t : list event) :
  step_of ev = Some Generate -> s <> Generate -> Forall (in_step s) t -> ev ∉ t.
Proof.
  intros Hev Hs Hall Hin. rewrite Forall_forall in Hall.
  destruct (Hall _ Hin) as [H|H]; congruence.
Qed.

(** An observation object is constructed only after the arguments passed
    [setupArgs] and both reads returned: a failure in an earlier step leaves
    no object behind. *)
Theorem main_constructs_after_reads (w : World) (parsed : Namespace) (o : Obs) :
  NewObs o ∈ snd (main w parsed) ->
  exists args orb db orbits simdata colmap t1 t2,
    setupArgs parsed = (Returns args, []) /\
    orbitFile args = Some orb /\ opsimDb args = Some db /\
    readOrbits w orb = (Returns orbits, t1) /\
    readOpsim w db (Some (sqlConstraint args)) (footprint args) None
    = (Returns (simdata, colmap), t2) /\
    NewObs o ∈ snd (runObs w orbits simdata args colmap).
Proof.
  change (guarded (NewObs o)
    (fun _ => exists args orb db orbits simdata colmap t1 t2,
       setupArgs parsed = (Returns args, []) /\
       orbitFile args = Some orb /\ opsimDb args = Some db /\
       readOrbits w orb = (Returns orbits, t1) /\
       readOpsim w db (Some (sqlConstraint args)) (footprint args) None
       = (Returns (simdata, colmap), t2) /\
       NewObs o ∈ snd (runObs w orbits simdata args colmap))
    (main w parsed)).
  unfold main.
  apply guarded_bind; [apply notin_setupArgs|intros args t0 Hargs].
  assert (t0 = []) as -> by (pose proof (setupArgs_snd parsed) as E; now rewrite Hargs in E).
  do 3 (apply guarded_bind; [apply notin_emit; discriminate|intros _ ? _]).
  apply guarded_bind;
    [destruct (orbitFile args); [apply notin_ret|apply notin_raise]|intros orb ? Horb].
  apply guarded_bind;
    [apply (notin_outside ReadOrbits); [reflexivity|discriminate|apply readOrbits_calls]
    |intros orbits tro Hro].
  apply guarded_bind;
    [destruct (opsimDb args); [apply notin_ret|apply notin_raise]|intros db ? Hdb].
  apply guarded_bind;
    [apply (notin_outside ReadPointing); [reflexivity|discriminate|apply readOpsim_calls]
    |intros [simdata colmap] top Hop].
  intros Hin. rewrite snd_bind in Hin. apply elem_of_app in Hin as [Hin|Hin].
  - exists args, orb, db, orbits, simdata, colmap, tro, top.
    destruct (orbitFile args) as [orb'|]; [|discriminate].
    destruct (opsimDb args) as [db'|]; [|discriminate].
    apply ret_Returns in Horb as [-> _]. apply ret_Returns in Hdb as [-> _].
    repeat split; assumption.
  - exfalso. destruct (fst (runObs w orbits simdata args colmap)); simpl in Hin.
    + apply list_elem_of_singleton in Hin. discriminate Hin.
    + inversion Hin.
Qed.

Lemma main_constructs_after_reads_witness :
  NewObs hexagon_obs ∈ snd (main sample_world hexagon_args) /\
  exists args orb db orbits simdata colmap t1 t2,
    setupArgs hexagon_args = (Returns args, []) /\
    orbitFile args = Some orb /\ opsimDb args = Some db /\
    readOrbits sample_world orb = (Returns orbits, t1) /\
    readOpsim sample_world db (Some (sqlConstraint args)) (footprint args) None
    = (Returns (simdata, colmap), t2) /\
    NewObs hexagon_obs ∈ snd (runObs sample_world orbits simdata args colmap).
Proof.
  assert (Hin : NewObs hexagon_obs ∈ snd (main sample_world hexagon_args))
    by (vm_compute; repeat first [left | right]).
  split; [exact Hin|].
  exact (main_constructs_after_reads sample_world hexagon_args hexagon_obs Hin).
Defined.

(** When [setupArgs] rejects the command line, the driver has done nothing
    yet: no log is configured, no file is looked at, no database opened. *)
Theorem main_rejected_args (w : World) (parsed : Namespace) (e : exn) :
  fst (setupArgs parsed) = Raises e -> main w parsed = (Raises e, []).
Proof.
  intros H. unfold main. pose proof (setupArgs_snd parsed) as Hs.
  destruct (setupArgs parsed) as [r t]. simpl in H, Hs. now subst.
Qed.

Lemma main_rejected_args_witness :
  fst (setupArgs capital_args)
  = Raises (Own ValueError
              "Must choose linear or direct observation generation method (obsType).") /\
  main sample_world capital_args
  = (Raises (Own ValueError
               "Must choose linear or direct observation generation method (obsType)."), []).
Proof.
  split; [reflexivity|]. apply (main_rejected_args sample_world capital_args). reflexivity.
Defined.

Lemma steps_logging (t : list event) :
  Forall (fun ev => step_of ev = None) t -> choose step_of t = [].
Proof. apply choose_none. Qed.

Lemma squash_two (n1 n2 : nat) :
  squash (replicate (S n1) ReadOrbits ++ replicate (S n2) ReadPointing)
  = [ReadOrbits; ReadPointing].
Proof.
  rewrite squash_replicate, <- (app_nil_r (replicate (S n2) ReadPointing)).
  rewrite squash_cons_other by discriminate. now rewrite squash_replicate.
Qed.

Lemma squash_one (a : step) (n : nat) : squash (replicate (S n) a) = [a].
Proof. rewrite <- (app_nil_r (replicate (S n) a)). now rewrite squash_replicate. Qed.

(** Whatever happens, the steps of the driver keep their order: the steps a
    run went through, also one that failed, are the first zero, one, two or
    three of reading the orbits, reading the pointing data, generating. *)
Theorem main_steps_prefix (w : World) (parsed : Namespace) :
  steps (snd (main w parsed)) `prefix_of` [ReadOrbits; ReadPointing; Generate].
Proof.
  unfold main, steps.
  destruct (setupArgs parsed) as [[args|e] t0] eqn:Hargs;
    pose proof (setupArgs_snd parsed) as Ht0; rewrite Hargs in Ht0; simpl in Ht0; subst t0;
    [|now eexists].
  rewrite bind_Returns_pair, !bind_emit, !snd_prepend, !choose_app. cbn [choose step_of app].
  destruct (orbitFile args) as [orb|]; [rewrite bind_ret|now eexists].
  pose proof (readOrbits_calls w orb) as K1. destruct (readOrbits_first w orb) as [r1 E1].
  unfold calls_all in K1.
  destruct (choose_in_step_some ReadOrbits _ (OsPathIsfile orb) K1) as [n1 N1];
    [rewrite E1; left|reflexivity|].
  rewrite snd_bind, choose_app, N1.
  destruct (fst (readOrbits w orb)) as [orbits|e];
    [|cbn [choose]; rewrite app_nil_r, squash_one; now eexists].
  destruct (opsimDb args) as [db|];
    [rewrite bind_ret|cbn [choose snd bind raise]; rewrite app_nil_r, squash_one; now eexists].
  pose proof (readOpsim_calls w db (Some (sqlConstraint args)) (footprint args) None) as K2.
  destruct (readOpsim_first w db (Some (sqlConstraint args)) (footprint args) None)
    as [r2 E2].
  unfold calls_all in K2.
  destruct (choose_in_step_some ReadPointing _ (NewOpsimDatabase db) K2) as [n2 N2];
    [rewrite E2; left|reflexivity|].
  rewrite snd_bind, choose_app, N2.
  destruct (fst (readOpsim w db (Some (sqlConstraint args)) (footprint args) None))
    as [[simdata colmap]|e];
    [|cbn [choose]; rewrite app_nil_r, squash_two; now eexists].
  pose proof (runObs_calls w orbits simdata args colmap) as K3. unfold calls_all in K3.
  destruct (choose_in_step Generate _ K3) as [n3 N3].
  rewrite snd_bind, choose_app, N3.
  assert (Hlast : choose step_of
                    match fst (runObs w orbits simdata args colmap) with
                    | Returns a => snd (emit (LoggingInfo (Fmt "Completed successfully." [])))
                    | Raises _ => []
                    end = []) by now destruct (fst (runObs w orbits simdata args colmap)).
  rewrite Hlast. destruct n3 as [|n3].
  - change (replicate 0 Generate ++ []) with (@nil step).
    rewrite app_nil_r, squash_two. now eexists.
  - rewrite squash_three. now exists [].
Qed.
